(** * tdd-project: product schemas and test fixtures

    A shallow embedding of
      - [store/schemas/base.py]    (BaseSchemaMixin),
      - [store/schemas/product.py] (ProductIn),
      - [tests/conftest.py]        (mongo_client, clear_collections,
                                    product_id, product_in),
    together with the parts of the Python runtime, of [uuid], [datetime],
    pydantic and the MongoDB driver that these three files call.

    Effects are explicit: the entropy source and the system clock live in a
    [World] that constructors thread; the MongoDB server is a [Server] value
    that the cleanup step transforms; Python exceptions are results. *)

From Stdlib Require Import ZArith String Ascii List Bool Lia.
From Stdlib Require Import Strings.Byte.
From Stdlib Require Import Floats.SpecFloat.
From stdpp Require Import base gmap strings.
Import ListNotations.

Local Open Scope string_scope.
Local Open Scope Z_scope.

(** ** Python results and exceptions *)

Inductive result (E A : Type) : Type :=
| Ok (a : A)
| Err (e : E).
Arguments Ok {E A} a.
Arguments Err {E A} e.

Definition is_ok {E A} (r : result E A) : bool :=
  match r with Ok _ => true | Err _ => false end.

(** pydantic's error types, one per way a field can be refused. *)
Inductive ErrorType : Type :=
| missing
| string_type
| int_type | int_parsing | int_parsing_size | int_from_float | finite_number
| float_type | float_parsing
| bool_type | bool_parsing
| uuid_type | uuid_parsing | uuid_version
| datetime_type | datetime_parsing | datetime_from_date_parsing.

(** One line of a ValidationError: the field's name and what was wrong. *)
Definition LineError : Type := (string * ErrorType)%type.

(** The exception classes that occur.  The first group derives from
    [Exception]; the second derives from [BaseException] only. *)
Inductive PyExc : Type :=
| ValidationError (errors : list LineError)
| TypeError (msg : string)
| ValueError (msg : string)
| ConfigurationError (msg : string)
| ServerSelectionTimeoutError
| OperationFailure (code : Z)
| CancelledError
| KeyboardInterrupt
| SystemExit.

(** [isinstance(e, Exception)]. *)
Definition isinstance_Exception (e : PyExc) : bool :=
  match e with
  | CancelledError | KeyboardInterrupt | SystemExit => false
  | _ => true
  end.

(** ** Python strings *)

Module pystr.

(** The ASCII characters Python counts as white space: tab to carriage
    return, the four separators 28 to 31, and the space. *)
Definition is_space (c : ascii) : bool :=
  let n := nat_of_ascii c in
  ((9 <=? n)%nat && (n <=? 13)%nat || (28 <=? n)%nat && (n <=? 32)%nat)%bool.

Fixpoint lstrip_where (sp : ascii -> bool) (s : string) : string :=
  match s with
  | String c s' => if sp c then lstrip_where sp s' else s
  | EmptyString => EmptyString
  end.

Fixpoint rstrip_where (sp : ascii -> bool) (s : string) : string :=
  match s with
  | EmptyString => EmptyString
  | String c s' =>
      match rstrip_where sp s' with
      | EmptyString => if sp c then EmptyString else String c EmptyString
      | t => String c t
      end
  end.

(** Drop the characters [sp] accepts from both ends. *)
Definition strip_where (sp : ascii -> bool) (s : string) : string :=
  rstrip_where sp (lstrip_where sp s).

(** [s.strip()]. *)
Definition strip (s : string) : string := strip_where is_space s.

Definition lower (c : ascii) : ascii :=
  let n := nat_of_ascii c in
  if ((65 <=? n)%nat && (n <=? 90)%nat)%bool then ascii_of_nat (n + 32) else c.

(** [s.lower()]. *)
Fixpoint lowercase (s : string) : string :=
  match s with
  | EmptyString => EmptyString
  | String c s' => String (lower c) (lowercase s')
  end.

(** An optional sign: [true] for minus. *)
Definition sign (s : string) : bool * string :=
  match s with
  | String "-" s' => (true, s')
  | String "+" s' => (false, s')
  | _ => (false, s)
  end.

End pystr.

(** ** uuid.UUID *)

Module uuid.

(** A UUID object holds its 128-bit value as [int]. *)
Record UUID : Type := mkUUID { int : Z }.

Inductive Variant : Type :=
| RESERVED_NCS | RFC_4122 | RESERVED_MICROSOFT | RESERVED_FUTURE.

(** The [variant] property. *)
Definition variant (u : UUID) : Variant :=
  if Z.land (int u) (Z.shiftl 0x8000 48) =? 0 then RESERVED_NCS
  else if Z.land (int u) (Z.shiftl 0x4000 48) =? 0 then RFC_4122
  else if Z.land (int u) (Z.shiftl 0x2000 48) =? 0 then RESERVED_MICROSOFT
  else RESERVED_FUTURE.

(** The [version] property: only meaningful for RFC 4122 UUIDs. *)
Definition version (u : UUID) : option Z :=
  match variant u with
  | RFC_4122 => Some (Z.land (Z.shiftr (int u) 76) 0xf)
  | _ => None
  end.

(** [int.from_bytes(b, "big")]. *)
Definition int_from_bytes (b : list byte) : Z :=
  fold_left (fun acc x => acc * 256 + Z.of_N (Byte.to_N x)) b 0.

(** The tail of [UUID.__init__] when [version] is given: force the
    variant to RFC 4122 and write the version number. *)
Definition set_version (i version : Z) : Z :=
  let i := Z.land i (Z.lnot (Z.shiftl 0xc000 48)) in
  let i := Z.lor i (Z.shiftl 0x8000 48) in
  let i := Z.land i (Z.lnot (Z.shiftl 0xf000 64)) in
  Z.lor i (Z.shiftl version 76).

(** [UUID(bytes=b, version=v)]; the legal versions are 1 to 8 (1 to 5
    before Python 3.14). *)
Definition UUID_of_bytes (b : list byte) (version : Z) : result PyExc UUID :=
  if negb (Nat.eqb (List.length b) 16) then
    Err (ValueError "bytes is not a 16-char string")
  else if negb ((1 <=? version) && (version <=? 8)) then
    Err (ValueError "illegal version number")
  else Ok (mkUUID (set_version (int_from_bytes b) version)).

(** *** [UUID(hex)] *)

(** [s.replace(pat, "")]: [skip] counts the characters of a match still to
    be dropped. *)
Fixpoint remove_all_from (skip : nat) (pat s : string) : string :=
  match s with
  | EmptyString => EmptyString
  | String c s' =>
      match skip with
      | S k => remove_all_from k pat s'
      | O =>
          if (negb (String.eqb pat "") && String.prefix pat s)%bool
          then remove_all_from (Nat.pred (String.length pat)) pat s'
          else String c (remove_all_from O pat s')
      end
  end.

Definition remove_all (pat s : string) : string := remove_all_from O pat s.

Definition is_brace (c : ascii) : bool :=
  (Ascii.eqb c "{" || Ascii.eqb c "}")%bool.

Fixpoint lstrip_braces (s : string) : string :=
  match s with
  | String c s' => if is_brace c then lstrip_braces s' else s
  | EmptyString => EmptyString
  end.

Fixpoint rstrip_braces (s : string) : string :=
  match s with
  | EmptyString => EmptyString
  | String c s' =>
      match rstrip_braces s' with
      | EmptyString => if is_brace c then EmptyString else String c EmptyString
      | t => String c t
      end
  end.

(** [s.strip("{}")]. *)
Definition strip_braces (s : string) : string :=
  rstrip_braces (lstrip_braces s).

Definition hex_digit (c : ascii) : option Z :=
  let n := Z.of_nat (nat_of_ascii c) in
  if (48 <=? n) && (n <=? 57) then Some (n - 48)
  else if (97 <=? n) && (n <=? 102) then Some (n - 87)
  else if (65 <=? n) && (n <=? 70) then Some (n - 55)
  else None.

(** The digits of [int(s, 16)]: hexadecimal digits, single underscores
    allowed between two of them; [after_digit] tells whether the character
    before was a digit. *)
Fixpoint hex_digits (acc : Z) (after_digit : bool) (s : string) : option Z :=
  match s with
  | EmptyString => if after_digit then Some acc else None
  | String c s' =>
      if Ascii.eqb c "_" then
        if after_digit then hex_digits acc false s' else None
      else
        match hex_digit c with
        | Some d => hex_digits (acc * 16 + d) true s'
        | None => None
        end
  end.

(** [int(s, 16)]: surrounding white space, an optional sign, an optional
    [0x] prefix (after which one underscore may come), the digits. *)
Definition int_base16 (s : string) : option Z :=
  let (neg, u) := pystr.sign (pystr.strip s) in
  let digits :=
    match u with
    | String "0" (String x r) =>
        if (Ascii.eqb x "x" || Ascii.eqb x "X")%bool then
          match r with
          | String "_" r' => hex_digits 0 false r'
          | _ => hex_digits 0 false r
          end
        else hex_digits 0 false u
    | _ => hex_digits 0 false u
    end in
  match digits with
  | Some i => Some (if neg then - i else i)
  | None => None
  end.

(** [UUID(hex)]: drop the URN prefix, the braces and the hyphens, insist on
    32 characters, read them with [int(hex, 16)] and insist on a 128-bit
    value. *)
Definition UUID_of_hex (hex : string) : result PyExc UUID :=
  let hex := remove_all "uuid:" (remove_all "urn:" hex) in
  let hex := remove_all "-" (strip_braces hex) in
  if negb (Nat.eqb (String.length hex) 32) then
    Err (ValueError "badly formed hexadecimal UUID string")
  else
    match int_base16 hex with
    | Some i =>
        if (0 <=? i) && (i <? Z.shiftl 1 128) then Ok (mkUUID i)
        else Err (ValueError "int is out of range (need a 128-bit value)")
    | None => Err (ValueError "invalid literal for int() with base 16")
    end.

End uuid.

(** ** datetime.datetime *)

Module datetime.

(** A [timedelta], in microseconds. *)
Definition timedelta : Type := Z.

(** A fixed-offset [tzinfo]; [UTC] is the zero offset. *)
Record timezone : Type := mk_timezone { utcoffset : timedelta }.

Definition UTC : timezone := mk_timezone 0.

(** A datetime is its wall-clock reading, counted in microseconds from
    1970-01-01T00:00:00 on its own calendar (which fixes year, month, day,
    hour, minute, second and microsecond), and an optional [tzinfo]:
    [None] for a naive datetime. *)
Record datetime : Type := mk_datetime {
  wall_us : Z;
  tzinfo : option timezone
}.

(** Timezone-aware. *)
Definition is_aware (d : datetime) : bool :=
  match tzinfo d with Some _ => true | None => false end.

(** Timezone-aware and in UTC. *)
Definition is_utc (d : datetime) : bool :=
  match tzinfo d with
  | Some tz => utcoffset tz =? 0
  | None => false
  end.

End datetime.

(** ** The world a constructor runs in *)

(** [os.urandom] reads successive bytes of the entropy stream; the system
    clock yields one reading (microseconds since the epoch, UTC) per call.
    Both streams are arbitrary: nothing is assumed about two draws being
    different or about the clock advancing. *)
Record World : Type := mkWorld {
  entropy : nat -> byte;
  entropy_pos : nat;
  clock : nat -> Z;
  clock_reads : nat
}.

(** [os.urandom(n)]. *)
Definition os_urandom (n : nat) (w : World) : list byte * World :=
  (List.map (entropy w) (List.seq (entropy_pos w) n),
   mkWorld (entropy w) (entropy_pos w + n)%nat (clock w) (clock_reads w)).

(** [uuid.uuid4()]: [UUID(bytes=os.urandom(16), version=4)], with the
    constructor's two checks, which sixteen bytes and version 4 always pass,
    resolved ([uuid4_is_UUID_of_bytes] below). *)
Definition uuid4 (w : World) : uuid.UUID * World :=
  let (b, w') := os_urandom 16 w in
  (uuid.mkUUID (uuid.set_version (uuid.int_from_bytes b) 4), w').

(** [datetime.now(UTC)]. *)
Definition datetime_now_UTC (w : World) : datetime.datetime * World :=
  (datetime.mk_datetime (clock w (clock_reads w)) (Some datetime.UTC),
   mkWorld (entropy w) (entropy_pos w) (clock w) (S (clock_reads w))).

(** ** Python values passed as keyword arguments *)

(** A Python [float] is an IEEE 754 binary64 number. *)
Definition float : Type := spec_float.

Definition prec : Z := 53.
Definition emax : Z := 1024.

(** The objects that reach a constructor in this development. *)
Inductive PyVal : Type :=
| PNone
| PBool (b : bool)
| PInt (z : Z)
| PFloat (f : float)
| PStr (s : string)
| PUUID (u : uuid.UUID)
| PDatetime (d : datetime.datetime).

(** [**kwargs]: a dict with string keys. *)
Abbreviation kwargs := (gmap string PyVal).

(** [f( **d, k=v)]: a keyword given twice is a [TypeError], raised before
    the callee runs; the message names the callee, by module and qualified
    name, and the keyword. *)
Definition call_with (callee : string) (d : kwargs) (k : string) (v : PyVal)
  : result PyExc kwargs :=
  match d !! k with
  | Some _ =>
      Err (TypeError
             (callee ++ "() got multiple values for keyword argument '"
                     ++ k ++ "'")%string)
  | None => Ok (<[k := v]> d)
  end.

(** *** Conversions between Python numbers *)

(** [float(z)]: round to nearest, ties to even; an [int] too large for a
    double raises [OverflowError], rendered as [None]. *)
Definition float_of_int (z : Z) : option float :=
  match binary_normalize prec emax z 0 false with
  | S754_infinity _ | S754_nan => None
  | f => Some f
  end.

(** The integer a float denotes when it has no fractional part. *)
Definition int_of_integral_float (f : float) : result ErrorType Z :=
  match f with
  | S754_zero _ => Ok 0
  | S754_infinity _ | S754_nan => Err finite_number
  | S754_finite s m e =>
      let v :=
        if 0 <=? e then Some (Z.pos m * 2 ^ e)
        else if Z.pos m mod 2 ^ (- e) =? 0 then Some (Z.pos m / 2 ^ (- e))
        else None in
      match v with
      | None => Err int_from_float
      | Some v =>
          if v <? 2 ^ 63 then Ok (if s then - v else v)
          else Err int_parsing_size
      end
  end.

(** ** Decimal numerals *)

(** The numerals that every release of the library reads, and reads the same
    way: surrounding white space, an optional sign, decimal digits and, for a
    float, an optional fraction. *)
Module decimal.

Definition digit (c : ascii) : option Z :=
  let n := Z.of_nat (nat_of_ascii c) in
  if (48 <=? n) && (n <=? 57) then Some (n - 48) else None.

(** The ASCII characters the library trims before it reads a number: tab to
    carriage return, and the space. *)
Definition is_blank (c : ascii) : bool :=
  let n := nat_of_ascii c in
  ((9 <=? n)%nat && (n <=? 13)%nat || (n =? 32)%nat)%bool.

Definition trim (s : string) : string := pystr.strip_where is_blank s.

(** Read decimal digits up to the first character that is not one: the
    number read, how many digits it had, and the rest. *)
Fixpoint digits_from (acc : Z) (count : nat) (s : string)
  : Z * nat * string :=
  match s with
  | EmptyString => (acc, count, s)
  | String c s' =>
      match digit c with
      | Some d => digits_from (acc * 10 + d) (S count) s'
      | None => (acc, count, s)
      end
  end.

(** The integer a numeral denotes. *)
Definition str_as_int (s : string) : option Z :=
  let (neg, s) := pystr.sign (trim s) in
  match digits_from 0 0 s with
  | (n, S _, EmptyString) => Some (if neg then - n else n)
  | _ => None
  end.

(** Text of more than 4300 characters is not read as an integer at all. *)
Definition too_long (s : string) : bool :=
  (4300 <? String.length (trim s))%nat.

(** The double nearest to [(-1)^neg * m / 10^k], for [0 <= m]. *)
Definition decimal_as_float (neg : bool) (m : Z) (k : nat) : float :=
  match k with
  | O => binary_normalize prec emax (if neg then - m else m) 0 neg
  | S _ =>
      if m =? 0 then S754_zero neg
      else
        let '(q, e, l) := SFdiv_core_binary prec emax m 0 (10 ^ Z.of_nat k) 0 in
        binary_round_aux prec emax neg q e l
  end.

Definition finite (f : float) : option float :=
  match f with
  | S754_infinity _ | S754_nan => None
  | _ => Some f
  end.

(** The float a numeral denotes, when it is in the range of a double. *)
Definition str_as_float (s : string) : option float :=
  let (neg, s) := pystr.sign (trim s) in
  match digits_from 0 0 s with
  | (n, S _, EmptyString) => finite (decimal_as_float neg n 0)
  | (n, S _, String "." frac) =>
      match digits_from n 0 frac with
      | (m, k, EmptyString) => finite (decimal_as_float neg m k)
      | _ => None
      end
  | _ => None
  end.

(** The character of a digit, the numeral of a list of digits, most
    significant first, and the number it denotes. *)
Definition digit_char (d : Z) : ascii := ascii_of_nat (48 + Z.to_nat d).

Fixpoint numeral (ds : list Z) : string :=
  match ds with
  | [] => EmptyString
  | d :: rest => String (digit_char d) (numeral rest)
  end.

Definition value (ds : list Z) : Z :=
  fold_left (fun acc d => acc * 10 + d) ds 0.

Definition is_digit (d : Z) : Prop := 0 <= d <= 9.

(** A numeral with a minus sign before it, or as it is. *)
Definition signed (neg : bool) (s : string) : string :=
  if neg then String "-" s else s.

End decimal.

(** ** pydantic, lax mode *)

(** pydantic validates in lax mode unless told otherwise, and neither schema
    tells it otherwise: a value of another type is converted where a
    conversion exists.  Conversions between Python objects are written out
    below, and so is the reading of decimal numerals ([decimal]).  What
    other text a release reads as a number, and how text (and, for
    timestamps, a number) is read as a truth value, a UUID or a date, is
    the library's own grammar, which differs between releases; it is taken
    as an interface, and the theorems hold for every implementation of it.
    [str_as_datetime] reads a date and time or, failing that, a date, taken
    at midnight. *)
Class LaxParsers : Type := {
  str_as_int : string -> option Z;
  str_as_float : string -> option float;
  str_as_bool : string -> option bool;
  str_as_uuid : string -> option uuid.UUID;
  str_as_datetime : string -> option datetime.datetime;
  int_as_datetime : Z -> option datetime.datetime;
  float_as_datetime : float -> option datetime.datetime
}.

Section Validators.

Context {parsers : LaxParsers}.

Definition of_parse {A} (e : ErrorType) (o : option A) : result ErrorType A :=
  match o with Some a => Ok a | None => Err e end.

(** [str]: only a [str] is a string. *)
Definition validate_str (v : PyVal) : result ErrorType string :=
  match v with
  | PStr s => Ok s
  | _ => Err string_type
  end.

(** [int]: an [int]; a [bool] (a subclass of [int]); a float without
    fractional part; text that reads as an integer. *)
Definition validate_int (v : PyVal) : result ErrorType Z :=
  match v with
  | PInt z => Ok z
  | PBool b => Ok (if b then 1 else 0)
  | PFloat f => int_of_integral_float f
  | PStr s =>
      if decimal.too_long s then Err int_parsing_size
      else
        match decimal.str_as_int s with
        | Some z => Ok z
        | None => of_parse int_parsing (str_as_int s)
        end
  | _ => Err int_type
  end.

(** [float]: a [float]; an [int] or [bool], converted; text that reads as
    a number. *)
Definition validate_float (v : PyVal) : result ErrorType float :=
  match v with
  | PFloat f => Ok f
  | PInt z => of_parse float_type (float_of_int z)
  | PBool b => of_parse float_type (float_of_int (if b then 1 else 0))
  | PStr s =>
      match decimal.str_as_float s with
      | Some f => Ok f
      | None => of_parse float_parsing (str_as_float s)
      end
  | _ => Err float_type
  end.

Definition int_as_bool (z : Z) : result ErrorType bool :=
  if z =? 0 then Ok false else if z =? 1 then Ok true else Err bool_parsing.

(** [bool]: a [bool]; the numbers 0 and 1; text that reads as a truth
    value.  Another 64-bit integer, as an [int] or as a float without
    fractional part, is a parsing error; any other number is of the wrong
    type. *)
Definition validate_bool (v : PyVal) : result ErrorType bool :=
  match v with
  | PBool b => Ok b
  | PInt z =>
      if (- 2 ^ 63 <=? z) && (z <? 2 ^ 63) then int_as_bool z
      else Err bool_type
  | PFloat f =>
      match int_of_integral_float f with
      | Ok z => int_as_bool z
      | Err _ => Err bool_type
      end
  | PStr s => of_parse bool_parsing (str_as_bool s)
  | _ => Err bool_type
  end.

(** The version check of [UUID4]: an RFC 4122 UUID whose version is 4. *)
Definition check_version (expected : Z) (u : uuid.UUID)
  : result ErrorType uuid.UUID :=
  match uuid.version u with
  | Some v => if v =? expected then Ok u else Err uuid_version
  | None => Err uuid_version
  end.

(** [UUID4]: a [UUID] object, or text that reads as one, of version 4. *)
Definition validate_uuid4 (v : PyVal) : result ErrorType uuid.UUID :=
  match v with
  | PUUID u => check_version 4 u
  | PStr s =>
      match str_as_uuid s with
      | Some u => check_version 4 u
      | None => Err uuid_parsing
      end
  | _ => Err uuid_type
  end.

(** [datetime]: a [datetime] object is taken as it is, naive or aware, in
    any zone; text and numbers are read as timestamps; a [bool] is not a
    number here.  Text that is not a date and time is tried as a date, so
    that unreadable text is reported as a failed date. *)
Definition validate_datetime (v : PyVal) : result ErrorType datetime.datetime :=
  match v with
  | PDatetime d => Ok d
  | PStr s => of_parse datetime_from_date_parsing (str_as_datetime s)
  | PInt z => of_parse datetime_parsing (int_as_datetime z)
  | PFloat f => of_parse datetime_parsing (float_as_datetime f)
  | _ => Err datetime_type
  end.

(** *** Model fields *)

(** Validating a model: an effectful computation over the world that
    either yields a value or the lines of its ValidationError. *)
Definition Validation (A : Type) : Type :=
  World -> result (list LineError) A * World.

Definition pure {A} (a : A) : Validation A := fun w => (Ok a, w).

(** Fields are validated in declaration order and every failing field is
    reported: a failure does not stop the fields after it, nor their
    default factories. *)
Definition ap {A B} (mf : Validation (A -> B)) (ma : Validation A)
  : Validation B :=
  fun w =>
    let (rf, w1) := mf w in
    let (ra, w2) := ma w1 in
    (match rf, ra with
     | Ok f, Ok a => Ok (f a)
     | Err e1, Err e2 => Err (e1 ++ e2)%list
     | Err e1, Ok _ => Err e1
     | Ok _, Err e2 => Err e2
     end, w2).

(** [Field(default_factory=...)]: a supplied value is validated and the
    factory is left alone; without one the factory is called and its
    result used as it is. *)
Definition field_with_default {A} (name : string)
    (validate : PyVal -> result ErrorType A)
    (default_factory : World -> A * World) (kw : kwargs) : Validation A :=
  fun w =>
    match kw !! name with
    | Some v =>
        (match validate v with
         | Ok a => Ok a
         | Err e => Err [(name, e)]
         end, w)
    | None => let (a, w') := default_factory w in (Ok a, w')
    end.

(** [Field(...)]: required. *)
Definition field_required {A} (name : string)
    (validate : PyVal -> result ErrorType A) (kw : kwargs) : Validation A :=
  fun w =>
    (match kw !! name with
     | Some v =>
         match validate v with
         | Ok a => Ok a
         | Err e => Err [(name, e)]
         end
     | None => Err [(name, missing)]
     end, w).

(** Instantiating a model class: the instance, or a ValidationError. *)
Definition instantiate {A} (m : Validation A) (w : World)
  : result PyExc A * World :=
  let (r, w') := m w in
  (match r with
   | Ok a => Ok a
   | Err errors => Err (ValidationError errors)
   end, w').

End Validators.

Infix "<*>" := ap (at level 61, left associativity).

(** ** store/schemas/base.py *)

Module BaseSchemaMixin.

Record t : Type := mk {
  id : uuid.UUID;
  created_at : datetime.datetime;
  updated_at : datetime.datetime
}.

Section Model.
Context {parsers : LaxParsers}.

Definition fields (kw : kwargs) : Validation t :=
  pure mk
    <*> field_with_default "id" validate_uuid4 uuid4 kw
    <*> field_with_default "created_at" validate_datetime datetime_now_UTC kw
    <*> field_with_default "updated_at" validate_datetime datetime_now_UTC kw.

(** [BaseSchemaMixin( **kw)]. *)
Definition new (kw : kwargs) (w : World) : result PyExc t * World :=
  instantiate (fields kw) w.

End Model.

End BaseSchemaMixin.

(** ** store/schemas/product.py *)

Module ProductIn.

(** [class ProductIn(BaseSchemaMixin)]: the inherited fields come first. *)
Record t : Type := mk {
  base : BaseSchemaMixin.t;
  name : string;
  quantity : Z;
  price : float;
  status : bool
}.

Section Model.
Context {parsers : LaxParsers}.

Definition fields (kw : kwargs) : Validation t :=
  pure mk
    <*> BaseSchemaMixin.fields kw
    <*> field_required "name" validate_str kw
    <*> field_required "quantity" validate_int kw
    <*> field_required "price" validate_float kw
    <*> field_required "status" validate_bool kw.

(** [ProductIn( **kw)]. *)
Definition new (kw : kwargs) (w : World) : result PyExc t * World :=
  instantiate (fields kw) w.

End Model.

End ProductIn.

(** ** The MongoDB server seen through the driver *)

Module mongo.

Definition Document : Type := list (string * PyVal).

(** A collection holds documents.  [delete_raises] is the error, if any,
    the server answers a delete with (a view, a missing privilege, a lost
    connection). *)
Record Collection : Type := mkCollection {
  documents : list Document;
  delete_raises : option PyExc
}.

(** A database lists its collections in a fixed order.  [list_raises] is
    the error, if any, that listing them runs into. *)
Record Database : Type := mkDatabase {
  collections : list (string * Collection);
  list_raises : option PyExc
}.

Abbreviation Server := (gmap string Database).

(** A client remembers the database named in its connection URI. *)
Record Client : Type := mkClient {
  default_database_name : option string
}.

Fixpoint drop_prefix (p s : string) : option string :=
  match p, s with
  | EmptyString, _ => Some s
  | String a p', String b s' =>
      if Ascii.eqb a b then drop_prefix p' s' else None
  | String _ _, EmptyString => None
  end.

(** [s.partition(sep)], for a one-character separator: the text before
    and, when the separator occurs, the text after. *)
Fixpoint partition (sep : ascii) (s : string) : string * option string :=
  match s with
  | EmptyString => (EmptyString, None)
  | String c s' =>
      if Ascii.eqb c sep then (EmptyString, Some s')
      else let (l, r) := partition sep s' in (String c l, r)
  end.

(** The database a connection URI names: the path after the hosts, up to
    the options and up to a collection suffix; no path, no database. *)
Definition uri_database (uri : string) : option string :=
  match drop_prefix "mongodb://" uri with
  | None => None
  | Some scheme_free =>
      match snd (partition "/" scheme_free) with
      | None => None
      | Some path =>
          let dbase := fst (partition "." (fst (partition "?" path))) in
          if String.eqb dbase "" then None else Some dbase
      end
  end.

(** [AsyncIOMotorClient(uri)]: connecting is lazy, nothing is sent yet. *)
Definition AsyncIOMotorClient (uri : string) : Client :=
  mkClient (uri_database uri).

(** [client.get_database()] with no name: the URI's database, and a
    [ConfigurationError] when the URI names none. *)
Definition get_database (c : Client) : result PyExc string :=
  match default_database_name c with
  | Some name => Ok name
  | None =>
      Err (ConfigurationError "No default database defined")
  end.

(** A database that was never written to has no collections. *)
Definition database (name : string) (s : Server) : Database :=
  default (mkDatabase [] None) (s !! name).

(** [db.list_collection_names()]. *)
Definition list_collection_names (db : string) (s : Server)
  : result PyExc (list string) :=
  match list_raises (database db s) with
  | Some e => Err e
  | None => Ok (List.map fst (collections (database db s)))
  end.

Definition find_collection (name : string) (d : Database) : option Collection :=
  snd <$> List.find (fun p => String.eqb (fst p) name) (collections d).

(** Remove the matching documents of every collection called [name]. *)
Definition delete_in (name : string) (filter : Document -> bool)
    (cs : list (string * Collection)) : list (string * Collection) :=
  List.map (fun p =>
    if String.eqb (fst p) name
    then (fst p,
          mkCollection
            (List.filter (fun d => negb (filter d)) (documents (snd p)))
            (delete_raises (snd p)))
    else p) cs.

(** [db[name].delete_many(filter)]: nothing to do on a collection that
    does not exist. *)
Definition delete_many (db name : string) (filter : Document -> bool)
    (s : Server) : result PyExc unit * Server :=
  let d := database db s in
  match find_collection name d with
  | None => (Ok tt, s)
  | Some c =>
      match delete_raises c with
      | Some e => (Err e, s)
      | None =>
          (Ok tt,
           <[db := mkDatabase (delete_in name filter (collections d))
                              (list_raises d)]> s)
      end
  end.

(** The filter [{}] matches every document. *)
Definition empty_filter : Document -> bool := fun _ => true.

End mongo.

(** ** tests/conftest.py *)

(** [mongo_client]: the session's client. *)
Definition mongo_client : mongo.Client :=
  mongo.AsyncIOMotorClient "mongodb://localhost:27017".

(** How a fixture's teardown ends: it returns, or an exception leaves it
    and pytest reports an error for the test. *)
Inductive Outcome : Type :=
| Returned
| Propagated (e : PyExc).

(** The [for] loop of [clear_collections]. *)
Fixpoint clear_each (client : mongo.Client) (collections_names : list string)
    (s : mongo.Server) : result PyExc unit * mongo.Server :=
  match collections_names with
  | [] => (Ok tt, s)
  | collection_name :: rest =>
      if String.prefix "system" collection_name then clear_each client rest s
      else
        match mongo.get_database client with
        | Err e => (Err e, s)
        | Ok db =>
            match mongo.delete_many db collection_name mongo.empty_filter s with
            | (Err e, s') => (Err e, s')
            | (Ok _, s') => clear_each client rest s'
            end
        end
  end.

(** The body of the [try]. *)
Definition clear_all (client : mongo.Client) (s : mongo.Server)
  : result PyExc unit * mongo.Server :=
  match mongo.get_database client with
  | Err e => (Err e, s)
  | Ok db =>
      match mongo.list_collection_names db s with
      | Err e => (Err e, s)
      | Ok collections_names => clear_each client collections_names s
      end
  end.

(** [clear_collections], after its [yield]: the post-test cleanup step.
    [except Exception: pass] discards what is an [Exception] and lets
    anything else through. *)
Definition clear_collections (client : mongo.Client) (s : mongo.Server)
  : Outcome * mongo.Server :=
  let (r, s') := clear_all client s in
  (match r with
   | Ok _ => Returned
   | Err e => if isinstance_Exception e then Returned else Propagated e
   end, s').

(** [product_id]. *)
Definition product_id : result PyExc uuid.UUID :=
  uuid.UUID_of_hex "ddc287ef-ab93-4ef5-8336-78883c422f6a".

(** [product_in]: [ProductIn( **product_data(), id=product_id)].
    [tests/factories.py] is not among the sources, so the dict that
    [product_data()] returns is the parameter [product_data]. *)
Definition product_in {parsers : LaxParsers} (product_data : kwargs)
    (w : World) : result PyExc ProductIn.t * World :=
  match product_id with
  | Err e => (Err e, w)
  | Ok pid =>
      match call_with "store.schemas.product.ProductIn" product_data "id"
                      (PUUID pid) with
      | Err e => (Err e, w)
      | Ok kw => ProductIn.new kw w
      end
  end.

(** ** An implementation of the interface *)

(** An implementation of [LaxParsers] with the spellings a current release
    reads: integers with a zero fraction or with underscores between
    digits, floats with an exponent, infinities and NaN, the twelve truth
    words, UUIDs in their four written forms, ISO 8601 dates and date-times,
    Unix timestamps within the supported range.  The examples run on it. *)
Module plain.

Fixpoint all_zeros (s : string) : bool :=
  match s with
  | EmptyString => true
  | String c s' => (Ascii.eqb c "0" && all_zeros s')%bool
  end.

(** The text before the point, when all that follows the point is zeros. *)
Fixpoint before_zero_fraction (s : string) : option string :=
  match s with
  | EmptyString => None
  | String c s' =>
      if Ascii.eqb c "." then
        if all_zeros s' then Some EmptyString else None
      else option_map (String c) (before_zero_fraction s')
  end.

Fixpoint ends_with_underscore (s : string) : bool :=
  match s with
  | EmptyString => false
  | String c EmptyString => Ascii.eqb c "_"
  | String _ s' => ends_with_underscore s'
  end.

Fixpoint has_double_underscore (s : string) : bool :=
  match s with
  | String "_" (String "_" _) => true
  | String _ s' => has_double_underscore s'
  | EmptyString => false
  end.

(** The text without its underscores, when none begins or ends it and no
    two are adjacent. *)
Definition strip_underscores (s : string) : option string :=
  if (String.prefix "_" s || ends_with_underscore s
      || has_double_underscore s)%bool
  then None else Some (uuid.remove_all "_" s).

(** What is read as an integer besides the decimal numerals. *)
Definition str_as_int (s : string) : option Z :=
  let t := decimal.trim s in
  match before_zero_fraction t with
  | Some u => decimal.str_as_int u
  | None =>
      match strip_underscores t with
      | Some u => decimal.str_as_int u
      | None => None
      end
  end.

(** The double nearest to [(-1)^neg * m * 10^e], for [0 <= m]. *)
Definition scaled_as_float (neg : bool) (m e : Z) : float :=
  if 0 <=? e then
    binary_normalize prec emax ((if neg then - m else m) * 10 ^ e) 0 neg
  else decimal.decimal_as_float neg m (Z.to_nat (- e)).

(** What is read as a float besides the decimal numerals: a mantissa with
    an exponent, the infinities and NaN, in either case. *)
Definition str_as_float (s : string) : option float :=
  let (neg, t) := pystr.sign (pystr.lowercase (decimal.trim s)) in
  if (String.eqb t "inf" || String.eqb t "infinity")%bool
  then Some (S754_infinity neg)
  else if String.eqb t "nan" then Some S754_nan
  else
    let '(n, c1, r1) := decimal.digits_from 0 0 t in
    let '(m, k, r2) :=
      match r1 with
      | String "." frac => decimal.digits_from n 0 frac
      | _ => (n, O, r1)
      end in
    match (c1 + k)%nat, r2 with
    | S _, EmptyString => Some (scaled_as_float neg m (- Z.of_nat k))
    | S _, String "e" r3 =>
        let (eneg, r4) := pystr.sign r3 in
        match decimal.digits_from 0 0 r4 with
        | (x, S _, EmptyString) =>
            Some (scaled_as_float neg m ((if eneg then - x else x) - Z.of_nat k))
        | _ => None
        end
    | _, _ => None
    end.

Definition one_of (words : list string) (s : string) : bool :=
  existsb (String.eqb s) words.

Definition str_as_bool (s : string) : option bool :=
  let s := pystr.lowercase s in
  if one_of ["0"; "off"; "f"; "false"; "n"; "no"] s then Some false
  else if one_of ["1"; "on"; "t"; "true"; "y"; "yes"] s then Some true
  else None.

(** Exactly [n] hexadecimal digits. *)
Fixpoint hex_run (n : nat) (acc : Z) (s : string) : option (Z * string) :=
  match n with
  | O => Some (acc, s)
  | S k =>
      match s with
      | String c s' =>
          match uuid.hex_digit c with
          | Some d => hex_run k (acc * 16 + d) s'
          | None => None
          end
      | EmptyString => None
      end
  end.

Definition expect (c : ascii) (s : string) : option string :=
  match s with
  | String c' s' => if Ascii.eqb c c' then Some s' else None
  | EmptyString => None
  end.

(** Groups of 8, 4, 4, 4 and 12 digits with a hyphen between them. *)
Definition hyphenated (s : string) : option (Z * string) :=
  '(a, s) ← hex_run 8 0 s;
  s ← expect "-" s;
  '(a, s) ← hex_run 4 a s;
  s ← expect "-" s;
  '(a, s) ← hex_run 4 a s;
  s ← expect "-" s;
  '(a, s) ← hex_run 4 a s;
  s ← expect "-" s;
  hex_run 12 a s.

Definition whole (r : option (Z * string)) : option uuid.UUID :=
  match r with
  | Some (i, EmptyString) => Some (uuid.mkUUID i)
  | _ => None
  end.

(** A UUID written as 32 digits, hyphenated, as a URN, or hyphenated in
    braces. *)
Definition str_as_uuid (s : string) : option uuid.UUID :=
  match whole (hex_run 32 0 s) with
  | Some u => Some u
  | None =>
      match whole (hyphenated s) with
      | Some u => Some u
      | None =>
          match mongo.drop_prefix "urn:uuid:" s with
          | Some t => whole (hyphenated t)
          | None =>
              match expect "{" s with
              | Some t =>
                  match hyphenated t with
                  | Some (i, String "}" EmptyString) => Some (uuid.mkUUID i)
                  | _ => None
                  end
              | None => None
              end
          end
      end
  end.

(** Days from 1970-01-01 to the given day of the proleptic Gregorian
    calendar. *)
Definition days_from_civil (y m d : Z) : Z :=
  let y := if m <=? 2 then y - 1 else y in
  let era := y / 400 in
  let yoe := y - era * 400 in
  let doy := (153 * (if 2 <? m then m - 3 else m + 9) + 2) / 5 + d - 1 in
  let doe := yoe * 365 + yoe / 4 - yoe / 100 + doy in
  era * 146097 + doe - 719468.

Definition days_in_month (y m : Z) : Z :=
  if m =? 2 then
    if ((y mod 4 =? 0) && negb (y mod 100 =? 0) || (y mod 400 =? 0))%bool
    then 29 else 28
  else if ((m =? 4) || (m =? 6) || (m =? 9) || (m =? 11))%bool then 30
  else 31.

(** Exactly [n] decimal digits. *)
Fixpoint fixed_digits (n : nat) (acc : Z) (s : string) : option (Z * string) :=
  match n with
  | O => Some (acc, s)
  | S k =>
      match s with
      | String c s' =>
          match decimal.digit c with
          | Some d => fixed_digits k (acc * 10 + d) s'
          | None => None
          end
      | EmptyString => None
      end
  end.

(** The zone suffix: nothing (naive), [Z], or [+HH:MM] / [-HH:MM]. *)
Definition zone (s : string) : option (option datetime.timezone) :=
  match s with
  | EmptyString => Some None
  | String "Z" EmptyString => Some (Some datetime.UTC)
  | String c s' =>
      if (Ascii.eqb c "+" || Ascii.eqb c "-")%bool then
        ('(h, s1) ← fixed_digits 2 0 s';
         s2 ← expect ":" s1;
         '(mi, s3) ← fixed_digits 2 0 s2;
         if (String.eqb s3 "" && (h <? 24) && (mi <? 60))%bool then
           let off := (h * 3600 + mi * 60) * 1000000 in
           Some (Some (datetime.mk_timezone
                         (if Ascii.eqb c "-" then - off else off)))
         else None)
      else None
  end.

(** [YYYY-MM-DD]: the day, counted from 1970-01-01, and the rest. *)
Definition date (s : string) : option (Z * string) :=
  '(y, s) ← fixed_digits 4 0 s;
  s ← expect "-" s;
  '(mo, s) ← fixed_digits 2 0 s;
  s ← expect "-" s;
  '(d, s) ← fixed_digits 2 0 s;
  if ((1 <=? y) && (1 <=? mo) && (mo <=? 12) && (1 <=? d)
      && (d <=? days_in_month y mo))%bool
  then Some (days_from_civil y mo d, s)
  else None.

(** [HH:MM:SS], with an optional fraction of up to six digits and an optional
    zone: the microseconds into the day, and the zone. *)
Definition time (s : string) : option (Z * option datetime.timezone) :=
  '(h, s) ← fixed_digits 2 0 s;
  s ← expect ":" s;
  '(mi, s) ← fixed_digits 2 0 s;
  s ← expect ":" s;
  '(sec, s) ← fixed_digits 2 0 s;
  '(us, s) ← match s with
             | String "." frac =>
                 match decimal.digits_from 0 0 frac with
                 | (f, k, rest) =>
                     if ((1 <=? k)%nat && (k <=? 6)%nat)%bool
                     then Some (f * 10 ^ Z.of_nat (6 - k), rest)
                     else None
                 end
             | _ => Some (0, s)
             end;
  tz ← zone s;
  if ((h <? 24) && (mi <? 60) && (sec <? 60))%bool
  then Some (((h * 60 + mi) * 60 + sec) * 1000000 + us, tz)
  else None.

(** A date and time, or a date alone, taken at midnight. *)
Definition str_as_datetime (s : string) : option datetime.datetime :=
  '(day, s) ← date s;
  match s with
  | EmptyString => Some (datetime.mk_datetime (day * 86400000000) None)
  | String c s' =>
      if (Ascii.eqb c "T" || Ascii.eqb c " ")%bool then
        ('(us, tz) ← time s';
         Some (datetime.mk_datetime (day * 86400000000 + us) tz))
      else None
  end.

(** The first and the last second a Unix timestamp may denote:
    1600-01-01T00:00:00 and 9999-12-31T23:59:59. *)
Definition unix_1600 : Z := -11676096000.
Definition unix_9999 : Z := 253402300799.

(** A Unix timestamp, in microseconds: within the supported range, the
    datetime in UTC. *)
Definition timestamp_us (us : Z) : option datetime.datetime :=
  if (unix_1600 * 1000000 <=? us) && (us <? (unix_9999 + 1) * 1000000)
  then Some (datetime.mk_datetime us (Some datetime.UTC))
  else None.

(** A Unix timestamp: seconds, or milliseconds beyond 2e10 in magnitude. *)
Definition int_as_datetime (z : Z) : option datetime.datetime :=
  timestamp_us (if Z.abs z <=? 20000000000 then z * 1000000 else z * 1000).

(** [round(n / d)] for [0 <= n], [0 < d], halves away from zero. *)
Definition round_div (n d : Z) : Z := (2 * n + d) / (2 * d).

Definition float_as_datetime (f : float) : option datetime.datetime :=
  match f with
  | S754_zero _ => timestamp_us 0
  | S754_infinity _ | S754_nan => None
  | S754_finite s m e =>
      let num := Z.pos m * (if 0 <=? e then 2 ^ e else 1) in
      let den := if 0 <=? e then 1 else 2 ^ (- e) in
      let scale := if num <=? 20000000000 * den then 1000000 else 1000 in
      let us := round_div (num * scale) den in
      timestamp_us (if s then - us else us)
  end.

Definition parsers : LaxParsers :=
  Build_LaxParsers str_as_int str_as_float str_as_bool str_as_uuid
                   str_as_datetime int_as_datetime float_as_datetime.

End plain.

(** ** Vocabulary of the statements *)

(** [m] is refused in every world, and line [le] is among the errors. *)
Definition fails_with {A} (m : Validation A) (le : LineError) : Prop :=
  forall w, exists errors w', m w = (Err errors, w') /\ In le errors.

Module uuid4_bits.

(** The six bits [set_version] overwrites: the variant, bits 62-63, and
    the version, bits 76-79. *)
Definition fixed_mask : Z := Z.lor (Z.shiftl 0xc000 48) (Z.shiftl 0xf000 64).

(** What [set_version _ 4] writes there. *)
Definition fixed_value : Z := Z.lor (Z.shiftl 0x8000 48) (Z.shiftl 4 76).

(** The 122 bits of a draw that reach the UUID. *)
Definition free_bits (i : Z) : Z := Z.land i (Z.lnot fixed_mask).

End uuid4_bits.

(** The integer [uuid4] reads from the entropy stream in world [w]. *)
Definition draw (w : World) : Z :=
  uuid.int_from_bytes (fst (os_urandom 16 w)).

(** The value of [datetime.now(UTC)] on the [n]-th reading of the clock. *)
Definition now_at (w : World) (n : nat) : datetime.datetime :=
  datetime.mk_datetime (clock w n) (Some datetime.UTC).

(** 1 when the keyword is absent, so that its default factory runs. *)
Definition defaulted (kw : kwargs) (name : string) : nat :=
  match kw !! name with Some _ => 0 | None => 1 end.

(** [r] is the base-mixin record that constructing with [kw] in world [w]
    yields, the class being [BaseSchemaMixin] itself or [ProductIn], whose
    inherited part [r] then is; [w'] is the world afterwards. *)
Definition constructed {parsers : LaxParsers} (kw : kwargs) (w : World)
    (r : BaseSchemaMixin.t) (w' : World) : Prop :=
  BaseSchemaMixin.new kw w = (Ok r, w') \/
  exists p, ProductIn.new kw w = (Ok p, w') /\ ProductIn.base p = r.

(** The field is missing, or holds a value its validator cannot convert. *)
Definition refused {A} (name : string) (validate : PyVal -> result ErrorType A)
    (kw : kwargs) : Prop :=
  match kw !! name with
  | None => True
  | Some v => is_ok (validate v) = false
  end.

(** The value denotes the UUID [u]: as an object, or as text read as [u]. *)
Definition denotes_uuid {parsers : LaxParsers} (v : PyVal) (u : uuid.UUID)
  : Prop :=
  v = PUUID u \/ exists s, v = PStr s /\ str_as_uuid s = Some u.

(** Constructing a [ProductIn] from [kw] in world [w] is rejected, and the
    ValidationError has a line for the field [name]. *)
Definition rejects_field {parsers : LaxParsers} (kw : kwargs) (w : World)
    (name : string) : Prop :=
  exists errors w' e,
    ProductIn.new kw w = (Err (ValidationError errors), w')
    /\ In (name, e) errors.

(** The literal of [product_id], as a number. *)
Definition product_id_int : Z := 0xddc287efab934ef5833678883c422f6a.

(** Every error the database [d] can answer with is an [Exception]. *)
Definition raises_only_Exceptions (d : mongo.Database) : bool :=
  let is_Exception o :=
    match o with Some e => isinstance_Exception e | None => true end in
  is_Exception (mongo.list_raises d)
  && forallb (fun c => is_Exception (mongo.delete_raises (snd c)))
             (mongo.collections d).

(** The database [d] answers every listing and every delete. *)
Definition fault_free (d : mongo.Database) : bool :=
  match mongo.list_raises d with Some _ => false | None => true end
  && forallb (fun c => match mongo.delete_raises (snd c) with
                       | Some _ => false
                       | None => true
                       end)
             (mongo.collections d).

(** The collection without its documents. *)
Definition emptied (c : string * mongo.Collection) : string * mongo.Collection :=
  (fst c, mongo.mkCollection [] (mongo.delete_raises (snd c))).

(** What the sweep is meant to leave of a collection: a collection whose
    name begins with "system" as it was, any other without documents. *)
Definition swept (c : string * mongo.Collection) : string * mongo.Collection :=
  if String.prefix "system" (fst c) then c else emptied c.

(** What is left of a collection once the names in [seen] were visited. *)
Definition swept_so_far (seen : list string) (c : string * mongo.Collection)
  : string * mongo.Collection :=
  if negb (String.prefix "system" (fst c))
     && existsb (String.eqb (fst c)) seen
  then emptied c else c.

(** ** Sample inputs *)

(** A world whose clock advances by a microsecond per reading and whose
    entropy is all zero bytes but for byte 22, the seventh of the second
    16-byte draw, which holds the version nibble. *)
Definition sample_world : World :=
  mkWorld (fun n => if (n =? 22)%nat then xf0 else x00) 0
          (fun n => 1730000000000000 + Z.of_nat n) 0.

(** 7.5 *)
Definition seven_and_a_half : float := S754_finite false 8444249301319680 (-50).

Definition sample_product : kwargs :=
  <["name" := PStr "Notebook"]>
    (<["quantity" := PInt 10]>
       (<["price" := PFloat seven_and_a_half]>
          (<["status" := PBool true]> ∅))).

(** A version-1 UUID: c232ab00-9414-11ec-b3c8-9f6bdeced846. *)
Definition sample_uuid1 : uuid.UUID :=
  uuid.mkUUID 0xc232ab00941411ecb3c89f6bdeced846.

(** 2024-01-01T00:00:00, naive. *)
Definition sample_naive : datetime.datetime :=
  datetime.mk_datetime 1704067200000000 None.

Definition sample_document : mongo.Document :=
  [("name", PStr "Notebook"); ("quantity", PInt 10)].

(** A server with one database, [store]: a collection [products] holding
    one document, and a system collection. *)
Definition sample_server : mongo.Server :=
  {[ "store" :=
       mongo.mkDatabase
         [("products", mongo.mkCollection [sample_document] None);
          ("system.views", mongo.mkCollection [sample_document] None)]
         None ]}.

(** The same server when [products] refuses deletes (error 13,
    Unauthorized). *)
Definition sample_guarded_server : mongo.Server :=
  {[ "store" :=
       mongo.mkDatabase
         [("products",
           mongo.mkCollection [sample_document] (Some (OperationFailure 13)));
          ("carts", mongo.mkCollection [sample_document] None)]
         None ]}.

(** A client whose URI names the database [store]. *)
Definition store_client : mongo.Client :=
  mongo.AsyncIOMotorClient "mongodb://localhost:27017/store".

(** ** Vocabulary of the further properties *)

(** The keyword arguments that hand a record's own field values back to
    the constructor, each as an object of the field's type. *)
Definition base_values (r : BaseSchemaMixin.t) : kwargs :=
  <["id" := PUUID (BaseSchemaMixin.id r)]>
    (<["created_at" := PDatetime (BaseSchemaMixin.created_at r)]>
       (<["updated_at" := PDatetime (BaseSchemaMixin.updated_at r)]> ∅)).

Definition product_values (p : ProductIn.t) : kwargs :=
  <["name" := PStr (ProductIn.name p)]>
    (<["quantity" := PInt (ProductIn.quantity p)]>
       (<["price" := PFloat (ProductIn.price p)]>
          (<["status" := PBool (ProductIn.status p)]>
             (base_values (ProductIn.base p))))).

(** The fields the two classes declare, in declaration order. *)
Definition base_field_names : list string :=
  ["id"; "created_at"; "updated_at"].

Definition product_field_names : list string :=
  (base_field_names ++ ["name"; "quantity"; "price"; "status"])%list.




(** Whether a field is refused: a supplied value its validator does not
    convert, or the absence of a required field. *)
Definition is_refused {A} (name : string)
    (validate : PyVal -> result ErrorType A) (required : bool) (kw : kwargs)
  : bool :=
  match kw !! name with
  | Some v => negb (is_ok (validate v))
  | None => required
  end.

Definition refused_name {A} (name : string)
    (validate : PyVal -> result ErrorType A) (required : bool) (kw : kwargs)
  : list string :=
  if is_refused name validate required kw then [name] else [].

(** The names of the refused fields of the arguments [kw], in declaration
    order. *)
Definition base_refused {parsers : LaxParsers} (kw : kwargs) : list string :=
  (refused_name "id" validate_uuid4 false kw
   ++ refused_name "created_at" validate_datetime false kw
   ++ refused_name "updated_at" validate_datetime false kw)%list.

Definition product_refused {parsers : LaxParsers} (kw : kwargs)
  : list string :=
  (base_refused kw
   ++ refused_name "name" validate_str true kw
   ++ refused_name "quantity" validate_int true kw
   ++ refused_name "price" validate_float true kw
   ++ refused_name "status" validate_bool true kw)%list.


(** The error with which the database answers a delete on the collection
    called [n], if it does. *)
Definition refuses (d : mongo.Database) (n : string) : option PyExc :=
  match mongo.find_collection n d with
  | Some c => mongo.delete_raises c
  | None => None
  end.

(** The names the loop gets past: all of them up to the first collection,
    not a system one, that refuses the delete. *)
Fixpoint visited (d : mongo.Database) (names : list string) : list string :=
  match names with
  | [] => []
  | n :: rest =>
      if String.prefix "system" n then n :: visited d rest
      else match refuses d n with
           | Some _ => []
           | None => n :: visited d rest
           end
  end.

(** The error of that first refusal. *)
Fixpoint first_refusal (d : mongo.Database) (names : list string)
  : option PyExc :=
  match names with
  | [] => None
  | n :: rest =>
      if String.prefix "system" n then first_refusal d rest
      else match refuses d n with
           | Some e => Some e
           | None => first_refusal d rest
           end
  end.

(** The database once the names in [seen] were visited. *)
Definition sweep_database (seen : list string) (d : mongo.Database)
  : mongo.Database :=
  mongo.mkDatabase (List.map (swept_so_far seen) (mongo.collections d))
                   (mongo.list_raises d).

(** Replace the database called [db], when the server has one. *)
Definition update_database (db : string)
    (f : mongo.Database -> mongo.Database) (s : mongo.Server) : mongo.Server :=
  match s !! db with
  | Some d => <[db := f d]> s
  | None => s
  end.

(** How the handler of [clear_collections] ends on the error [e]. *)
Definition handled (e : PyExc) : Outcome :=
  if isinstance_Exception e then Returned else Propagated e.

(** The cleanup step described without its loop: no database selected or
    no listing, nothing happens; otherwise the collections are swept up to
    the first refusal. *)
Definition cleanup_result (client : mongo.Client) (s : mongo.Server)
  : Outcome * mongo.Server :=
  match mongo.default_database_name client with
  | None => (Returned, s)
  | Some db =>
      let d := mongo.database db s in
      match mongo.list_raises d with
      | Some e => (handled e, s)
      | None =>
          let names := List.map fst (mongo.collections d) in
          (match first_refusal d names with
           | Some e => handled e
           | None => Returned
           end,
           update_database db (sweep_database (visited d names)) s)
      end
  end.

(** A collection after the cleanup step: as it was, or, unless it is a
    system collection, without its documents. *)
Definition kept_or_emptied (c c' : string * mongo.Collection) : Prop :=
  c' = c \/ (String.prefix "system" (fst c) = false /\ c' = emptied c).

(** A server whose second collection refuses deletes. *)
Definition sample_half_guarded_server : mongo.Server :=
  {[ "store" :=
       mongo.mkDatabase
         [("carts", mongo.mkCollection [sample_document] None);
          ("products",
           mongo.mkCollection [sample_document] (Some (OperationFailure 13)));
          ("orders", mongo.mkCollection [sample_document] None)]
         None ]}.

(** * Properties *)

(** ** The validation machinery *)

Section Machinery.

Context {parsers : LaxParsers}.

Lemma ap_Ok {A B} (mf : Validation (A -> B)) (ma : Validation A) w b w' :
  ap mf ma w = (Ok b, w') ->
  exists f a w1, mf w = (Ok f, w1) /\ ma w1 = (Ok a, w') /\ b = f a.
Proof.
  unfold ap. destruct (mf w) as [rf w1] eqn:Ef.
  destruct (ma w1) as [ra w2] eqn:Ea.
  destruct rf, ra; intros H; inversion H; subst.
  eexists _, _, _. repeat split; eassumption.
Qed.

Lemma ap_Ok_intro {A B} (mf : Validation (A -> B)) (ma : Validation A)
    w f w1 a w2 :
  mf w = (Ok f, w1) -> ma w1 = (Ok a, w2) -> ap mf ma w = (Ok (f a), w2).
Proof. unfold ap. intros -> ->. reflexivity. Qed.

Lemma fails_ap_l {A B} (mf : Validation (A -> B)) (ma : Validation A) le :
  fails_with mf le -> fails_with (ap mf ma) le.
Proof.
  intros H w. unfold ap. destruct (H w) as (e & w1 & -> & Hin).
  destruct (ma w1) as [[a|e2] w2]; eexists _, _; split; try reflexivity;
    auto using in_or_app.
Qed.

Lemma fails_ap_r {A B} (mf : Validation (A -> B)) (ma : Validation A) le :
  fails_with ma le -> fails_with (ap mf ma) le.
Proof.
  intros H w. unfold ap. destruct (mf w) as [rf w1].
  destruct (H w1) as (e & w2 & -> & Hin).
  destruct rf; eexists _, _; split; try reflexivity; auto using in_or_app.
Qed.

Lemma fails_field_required_missing {A} name
    (validate : PyVal -> result ErrorType A) (kw : kwargs) :
  kw !! name = None -> fails_with (field_required name validate kw) (name, missing).
Proof.
  intros H w. unfold field_required. rewrite H.
  eexists _, _; split; [reflexivity | now left].
Qed.

Lemma fails_field_required_invalid {A} name
    (validate : PyVal -> result ErrorType A) (kw : kwargs) v e :
  kw !! name = Some v -> validate v = Err e ->
  fails_with (field_required name validate kw) (name, e).
Proof.
  intros H Hv w. unfold field_required. rewrite H, Hv.
  eexists _, _; split; [reflexivity | now left].
Qed.

Lemma fails_field_with_default_invalid {A} name
    (validate : PyVal -> result ErrorType A) factory (kw : kwargs) v e :
  kw !! name = Some v -> validate v = Err e ->
  fails_with (field_with_default name validate factory kw) (name, e).
Proof.
  intros H Hv w. unfold field_with_default. rewrite H, Hv.
  eexists _, _; split; [reflexivity | now left].
Qed.

Lemma fails_instantiate {A} (m : Validation A) le w :
  fails_with m le ->
  exists errors w',
    instantiate m w = (Err (ValidationError errors), w') /\ In le errors.
Proof.
  intros H. destruct (H w) as (e & w' & Hm & Hin). unfold instantiate.
  rewrite Hm. eauto.
Qed.

Lemma instantiate_Ok {A} (m : Validation A) w a w' :
  instantiate m w = (Ok a, w') <-> m w = (Ok a, w').
Proof.
  unfold instantiate. destruct (m w) as [[x|e] w1]; split; intros H;
    inversion H; subst; reflexivity.
Qed.

Lemma instantiate_Err {A} (m : Validation A) w e w' :
  m w = (Err e, w') -> instantiate m w = (Err (ValidationError e), w').
Proof. unfold instantiate. intros ->. reflexivity. Qed.

(** What a field with a default factory yields. *)
Lemma field_with_default_Ok {A} name (validate : PyVal -> result ErrorType A)
    factory (kw : kwargs) w a w' :
  field_with_default name validate factory kw w = (Ok a, w') ->
  match kw !! name with
  | Some v => validate v = Ok a /\ w' = w
  | None => factory w = (a, w')
  end.
Proof.
  unfold field_with_default. destruct (kw !! name) as [v|].
  - destruct (validate v); intros H; inversion H; subst; auto.
  - destruct (factory w). intros H; inversion H; subst; auto.
Qed.

(** What a required field yields. *)
Lemma field_required_Ok {A} name (validate : PyVal -> result ErrorType A)
    (kw : kwargs) w a w' :
  field_required name validate kw w = (Ok a, w') ->
  w' = w /\ exists v, kw !! name = Some v /\ validate v = Ok a.
Proof.
  unfold field_required. destruct (kw !! name) as [v|].
  - destruct (validate v) eqn:E; intros H; inversion H; subst; eauto.
  - intros H; inversion H.
Qed.

Lemma field_required_intro {A} name (validate : PyVal -> result ErrorType A)
    (kw : kwargs) w v a :
  kw !! name = Some v -> validate v = Ok a ->
  field_required name validate kw w = (Ok a, w).
Proof. unfold field_required. intros -> ->. reflexivity. Qed.

(** A successful [BaseSchemaMixin], field by field. *)
Lemma base_fields_Ok (kw : kwargs) w r w' :
  BaseSchemaMixin.fields kw w = (Ok r, w') ->
  exists w1 w2,
    field_with_default "id" validate_uuid4 uuid4 kw w
      = (Ok (BaseSchemaMixin.id r), w1) /\
    field_with_default "created_at" validate_datetime datetime_now_UTC kw w1
      = (Ok (BaseSchemaMixin.created_at r), w2) /\
    field_with_default "updated_at" validate_datetime datetime_now_UTC kw w2
      = (Ok (BaseSchemaMixin.updated_at r), w').
Proof.
  unfold BaseSchemaMixin.fields. intros H.
  apply ap_Ok in H as (f3 & u & w2 & H & Hu & ->).
  apply ap_Ok in H as (f2 & c & w1 & H & Hc & ->).
  apply ap_Ok in H as (f1 & i & w0 & H & Hi & ->).
  inversion H; subst. simpl. eauto.
Qed.

(** A successful [ProductIn], field by field: the inherited part is a
    successful [BaseSchemaMixin] on the same arguments, and the four
    fields of its own were supplied and validated. *)
Lemma product_fields_Ok (kw : kwargs) w p w' :
  ProductIn.fields kw w = (Ok p, w') ->
  BaseSchemaMixin.fields kw w = (Ok (ProductIn.base p), w') /\
  (exists v, kw !! "name" = Some v /\ validate_str v = Ok (ProductIn.name p)) /\
  (exists v, kw !! "quantity" = Some v
             /\ validate_int v = Ok (ProductIn.quantity p)) /\
  (exists v, kw !! "price" = Some v
             /\ validate_float v = Ok (ProductIn.price p)) /\
  (exists v, kw !! "status" = Some v
             /\ validate_bool v = Ok (ProductIn.status p)).
Proof.
  unfold ProductIn.fields. intros H.
  apply ap_Ok in H as (f5 & st & w4 & H & Hst & ->).
  apply ap_Ok in H as (f4 & pr & w3 & H & Hpr & ->).
  apply ap_Ok in H as (f3 & q & w2 & H & Hq & ->).
  apply ap_Ok in H as (f2 & n & w1 & H & Hn & ->).
  apply ap_Ok in H as (f1 & b & w0 & H & Hb & ->).
  inversion H; subst. simpl.
  apply field_required_Ok in Hst as (-> & Hst).
  apply field_required_Ok in Hpr as (-> & Hpr).
  apply field_required_Ok in Hq as (-> & Hq).
  apply field_required_Ok in Hn as (-> & Hn).
  auto.
Qed.

Lemma product_fields_intro (kw : kwargs) w b w' vn n vq q vp pr vs st :
  BaseSchemaMixin.fields kw w = (Ok b, w') ->
  kw !! "name" = Some vn -> validate_str vn = Ok n ->
  kw !! "quantity" = Some vq -> validate_int vq = Ok q ->
  kw !! "price" = Some vp -> validate_float vp = Ok pr ->
  kw !! "status" = Some vs -> validate_bool vs = Ok st ->
  ProductIn.fields kw w = (Ok (ProductIn.mk b n q pr st), w').
Proof.
  intros Hb Hn1 Hn2 Hq1 Hq2 Hp1 Hp2 Hs1 Hs2. unfold ProductIn.fields.
  repeat first
    [ eapply ap_Ok_intro; [ | eapply field_required_intro; eassumption ] ].
  eapply ap_Ok_intro; [reflexivity | exact Hb].
Qed.

End Machinery.

(** ** Version-4 UUIDs *)

Module uuid4_facts.

Import uuid4_bits.

Lemma disjoint_bits a b n :
  Z.land a b = 0 -> Z.testbit a n && Z.testbit b n = false.
Proof. intros H. rewrite <- Z.land_spec, H. apply Z.bits_0. Qed.

Ltac bitwise n Hn :=
  apply Z.bits_inj'; intros n Hn;
  repeat rewrite ?Z.lor_spec, ?Z.land_spec, ?Z.lnot_spec by assumption.

Lemma set_version_4 i :
  uuid.set_version i 4 = Z.lor (free_bits i) fixed_value.
Proof.
  unfold uuid.set_version, free_bits, fixed_mask, fixed_value.
  bitwise n Hn.
  pose proof (disjoint_bits (Z.shiftl 0x8000 48) (Z.shiftl 0xf000 64) n
                eq_refl) as D.
  destruct (Z.testbit i n), (Z.testbit (Z.shiftl 0xc000 48) n),
    (Z.testbit (Z.shiftl 0x8000 48) n), (Z.testbit (Z.shiftl 0xf000 64) n),
    (Z.testbit (Z.shiftl 4 76) n); simpl in *; congruence.
Qed.

Lemma free_bits_set_version_4 i :
  free_bits (uuid.set_version i 4) = free_bits i.
Proof.
  rewrite set_version_4. unfold free_bits.
  bitwise n Hn.
  pose proof (disjoint_bits fixed_value (Z.lnot fixed_mask) n eq_refl) as D.
  rewrite Z.lnot_spec in D by assumption.
  destruct (Z.testbit i n), (Z.testbit fixed_mask n),
    (Z.testbit fixed_value n); simpl in *; congruence.
Qed.

(** Two generated values coincide exactly when the draws agree outside
    the overwritten bits. *)
Lemma set_version_4_inj i j :
  uuid.set_version i 4 = uuid.set_version j 4 <-> free_bits i = free_bits j.
Proof.
  split; intros H.
  - rewrite <- (free_bits_set_version_4 i), <- (free_bits_set_version_4 j).
    now rewrite H.
  - now rewrite !set_version_4, H.
Qed.

(** A generated value is an RFC 4122 UUID of version 4. *)
Lemma version_set_version_4 i :
  uuid.version (uuid.mkUUID (uuid.set_version i 4)) = Some 4.
Proof.
  assert (V : uuid.variant (uuid.mkUUID (uuid.set_version i 4)) = uuid.RFC_4122).
  { unfold uuid.variant. simpl uuid.int.
    replace (Z.land (uuid.set_version i 4) (Z.shiftl 0x8000 48))
      with (Z.shiftl 0x8000 48).
    2:{ rewrite set_version_4. unfold free_bits. bitwise n Hn.
        pose proof (disjoint_bits (Z.shiftl 0x8000 48) (Z.lnot fixed_value) n
                      eq_refl) as D.
        rewrite Z.lnot_spec in D by assumption.
        destruct (Z.testbit i n), (Z.testbit fixed_mask n),
          (Z.testbit fixed_value n), (Z.testbit (Z.shiftl 0x8000 48) n);
          simpl in *; congruence. }
    replace (Z.land (uuid.set_version i 4) (Z.shiftl 0x4000 48)) with 0.
    2:{ rewrite set_version_4. unfold free_bits. bitwise n Hn.
        rewrite Z.bits_0.
        pose proof (disjoint_bits (Z.shiftl 0x4000 48) (Z.lnot fixed_mask) n
                      eq_refl) as D.
        pose proof (disjoint_bits (Z.shiftl 0x4000 48) fixed_value n
                      eq_refl) as D'.
        rewrite Z.lnot_spec in D by assumption.
        destruct (Z.testbit i n), (Z.testbit fixed_mask n),
          (Z.testbit fixed_value n), (Z.testbit (Z.shiftl 0x4000 48) n);
          simpl in *; congruence. }
    reflexivity. }
  unfold uuid.version. rewrite V. f_equal. simpl uuid.int.
  rewrite set_version_4. unfold free_bits.
  bitwise n Hn. rewrite !Z.shiftr_spec by assumption.
  repeat rewrite ?Z.lor_spec, ?Z.land_spec, ?Z.lnot_spec by lia.
  destruct (Z.testbit 15 n) eqn:E15.
  - assert (n < 4).
    { destruct (Z.ltb_spec n 4); [assumption|].
      rewrite (Z.bits_above_log2 15 n) in E15; [discriminate | lia |].
      change (Z.log2 15) with 3. lia. }
    assert (Hc : n = 0 \/ n = 1 \/ n = 2 \/ n = 3) by lia.
    destruct Hc as [-> | [-> | [-> | ->]]]; simpl;
      rewrite ?andb_false_r, ?andb_true_r; reflexivity.
  - rewrite !andb_false_r.
    destruct (Z.ltb_spec n 4).
    + assert (Hc : n = 0 \/ n = 1 \/ n = 2 \/ n = 3) by lia.
      destruct Hc as [-> | [-> | [-> | ->]]]; discriminate E15.
    + symmetry. apply Z.bits_above_log2; [lia|].
      change (Z.log2 4) with 2. lia.
Qed.

End uuid4_facts.

(** ** uuid4 and the UUID constructor *)

Lemma uuid4_is_UUID_of_bytes (w : World) :
  uuid.UUID_of_bytes (fst (os_urandom 16 w)) 4 = Ok (fst (uuid4 w)).
Proof. reflexivity. Qed.

(** ** BaseSchemaMixin, field by field *)

Section Base.

Context {parsers : LaxParsers}.

Lemma validate_uuid4_object u u' :
  validate_uuid4 (PUUID u) = Ok u' -> u' = u.
Proof.
  simpl. unfold check_version. destruct (uuid.version u) as [v|]; [|discriminate].
  destruct (v =? 4); congruence.
Qed.

(** Every field of a successfully built record, and what building it did
    to the world. *)
Lemma base_spec (kw : kwargs) w r w' :
  BaseSchemaMixin.fields kw w = (Ok r, w') ->
  match kw !! "id" with
  | Some v => validate_uuid4 v = Ok (BaseSchemaMixin.id r)
  | None => BaseSchemaMixin.id r = uuid.mkUUID (uuid.set_version (draw w) 4)
  end /\
  match kw !! "created_at" with
  | Some v => validate_datetime v = Ok (BaseSchemaMixin.created_at r)
  | None => BaseSchemaMixin.created_at r = now_at w (clock_reads w)
  end /\
  match kw !! "updated_at" with
  | Some v => validate_datetime v = Ok (BaseSchemaMixin.updated_at r)
  | None =>
      BaseSchemaMixin.updated_at r
      = now_at w (clock_reads w + defaulted kw "created_at")
  end /\
  entropy w' = entropy w /\ clock w' = clock w /\
  entropy_pos w' = (entropy_pos w + 16 * defaulted kw "id")%nat /\
  clock_reads w'
  = (clock_reads w + defaulted kw "created_at" + defaulted kw "updated_at")%nat.
Proof.
  intros H. apply base_fields_Ok in H as (w1 & w2 & Hi & Hc & Hu).
  apply field_with_default_Ok in Hi, Hc, Hu. unfold defaulted, now_at, draw.
  destruct (kw !! "id") as [vi|], (kw !! "created_at") as [vc|],
    (kw !! "updated_at") as [vu|];
    repeat match goal with
           | H : _ /\ _ |- _ => destruct H
           | H : uuid4 _ = _ |- _ => inversion H; clear H
           | H : datetime_now_UTC _ = _ |- _ => inversion H; clear H
           end; subst; simpl;
    rewrite ?Nat.add_0_r, ?Nat.add_1_r; repeat split; auto.
Qed.

End Base.

(** ** Claims about the base mixin *)

Section BaseClaims.

Context {parsers : LaxParsers}.

Lemma product_new_base (kw : kwargs) w p w' :
  ProductIn.new kw w = (Ok p, w') ->
  BaseSchemaMixin.fields kw w = (Ok (ProductIn.base p), w').
Proof.
  unfold ProductIn.new. rewrite instantiate_Ok. intros H.
  now apply product_fields_Ok in H.
Qed.

Lemma constructed_fields (kw : kwargs) w r w' :
  constructed kw w r w' -> BaseSchemaMixin.fields kw w = (Ok r, w').
Proof.
  intros [H | (p & H & <-)].
  - now apply instantiate_Ok in H.
  - now apply product_new_base.
Qed.

End BaseClaims.

(** C1 (as amended).  When neither [created_at] nor [updated_at] is supplied,
    each is a reading of the system clock of its own, in UTC, [created_at]
    read first and [updated_at] next; the two fields are equal exactly when
    the two readings are.  This holds for [BaseSchemaMixin] and for the
    inherited part of [ProductIn]. *)
Theorem default_timestamps_are_two_clock_readings
    {parsers : LaxParsers} (kw : kwargs) (w : World)
    (r : BaseSchemaMixin.t) (w' : World) :
  kw !! "created_at" = None ->
  kw !! "updated_at" = None ->
  constructed kw w r w' ->
  BaseSchemaMixin.created_at r = now_at w (clock_reads w) /\
  BaseSchemaMixin.updated_at r = now_at w (S (clock_reads w)) /\
  (BaseSchemaMixin.created_at r = BaseSchemaMixin.updated_at r
   <-> clock w (clock_reads w) = clock w (S (clock_reads w))).
Proof.
  intros Hc Hu H. apply constructed_fields, base_spec in H.
  unfold defaulted in H. rewrite Hc, Hu in H.
  destruct H as (_ & -> & -> & _). rewrite Nat.add_1_r.
  repeat split; intros E.
  - now inversion E.
  - unfold now_at. now rewrite E.
Qed.

Lemma default_timestamps_are_two_clock_readings_witness :
  let kw : kwargs := ∅ in
  let r := BaseSchemaMixin.mk
             (uuid.mkUUID 0x00000000000040008000000000000000)
             (now_at sample_world 0) (now_at sample_world 1) in
  let w' := mkWorld (entropy sample_world) 16 (clock sample_world) 2 in
  kw !! "created_at" = None /\
  kw !! "updated_at" = None /\
  constructed (parsers := plain.parsers) kw sample_world r w' /\
  BaseSchemaMixin.created_at r = now_at sample_world 0 /\
  BaseSchemaMixin.updated_at r = now_at sample_world 1 /\
  (BaseSchemaMixin.created_at r = BaseSchemaMixin.updated_at r
   <-> clock sample_world 0%nat = clock sample_world 1%nat).
Proof.
  intros kw r w'.
  split; [reflexivity |]. split; [reflexivity |]. split; [left; reflexivity |].
  apply (default_timestamps_are_two_clock_readings
           (parsers := plain.parsers) kw sample_world r w');
    [reflexivity | reflexivity | left; reflexivity].
Defined.

(** C1 (as stated) fails: with a clock that advances between the two
    readings, a record built with no arguments has [created_at] different
    from [updated_at]. *)
Lemma created_at_differs_from_updated_at :
  match fst (BaseSchemaMixin.new (parsers := plain.parsers)
               (∅ : kwargs) sample_world) with
  | Ok r => BaseSchemaMixin.created_at r <> BaseSchemaMixin.updated_at r
  | Err _ => False
  end.
Proof. vm_compute. discriminate. Qed.

(** C5 (as amended).  A value supplied for [id], [created_at] or
    [updated_at] decides the field: the record holds the supplied value as
    validated.  Supplied as a UUID object, or a datetime object, the field
    equals the supplied value exactly; supplied in another accepted
    representation, the field is the value it converts to.  The default
    factories do not run for supplied fields: no entropy is drawn when [id]
    is supplied, and the clock is read once per timestamp left out, not at
    all for one supplied. *)
Theorem explicit_values_override_defaults
    {parsers : LaxParsers} (kw : kwargs) (w : World)
    (r : BaseSchemaMixin.t) (w' : World) :
  constructed kw w r w' ->
  (forall v, kw !! "id" = Some v ->
     validate_uuid4 v = Ok (BaseSchemaMixin.id r)
     /\ entropy_pos w' = entropy_pos w) /\
  (forall u, kw !! "id" = Some (PUUID u) -> BaseSchemaMixin.id r = u) /\
  (forall v, kw !! "created_at" = Some v ->
     validate_datetime v = Ok (BaseSchemaMixin.created_at r)) /\
  (forall d, kw !! "created_at" = Some (PDatetime d) ->
     BaseSchemaMixin.created_at r = d) /\
  (forall v, kw !! "updated_at" = Some v ->
     validate_datetime v = Ok (BaseSchemaMixin.updated_at r)) /\
  (forall d, kw !! "updated_at" = Some (PDatetime d) ->
     BaseSchemaMixin.updated_at r = d) /\
  clock_reads w'
  = (clock_reads w + defaulted kw "created_at" + defaulted kw "updated_at")%nat.
Proof.
  intros H. apply constructed_fields, base_spec in H.
  destruct H as (Hi & Hc & Hu & _ & _ & Hpos & Hreads).
  repeat split; try assumption.
  - rewrite H in Hi. exact Hi.
  - unfold defaulted in Hpos. rewrite H in Hpos. lia.
  - intros u E. rewrite E in Hi. now apply validate_uuid4_object.
  - intros v E. now rewrite E in Hc.
  - intros d E. rewrite E in Hc. simpl in Hc. congruence.
  - intros v E. now rewrite E in Hu.
  - intros d E. rewrite E in Hu. simpl in Hu. congruence.
Qed.

Lemma explicit_values_override_defaults_witness :
  let pid := uuid.mkUUID 0xddc287efab934ef5833678883c422f6a in
  let kw : kwargs :=
    <["id" := PUUID pid]> (<["created_at" := PDatetime sample_naive]> ∅) in
  let r := BaseSchemaMixin.mk pid sample_naive (now_at sample_world 0) in
  let w' := mkWorld (entropy sample_world) 0 (clock sample_world) 1 in
  constructed (parsers := plain.parsers) kw sample_world r w' /\
  BaseSchemaMixin.id r = pid /\
  BaseSchemaMixin.created_at r = sample_naive /\
  entropy_pos w' = entropy_pos sample_world /\
  clock_reads w' = 1%nat.
Proof.
  intros pid kw r w'.
  assert (C : constructed (parsers := plain.parsers) kw sample_world r w')
    by (left; reflexivity).
  destruct (explicit_values_override_defaults
              (parsers := plain.parsers) kw sample_world r w' C)
    as (Hid & Hu & _ & Hc & _ & _ & Hreads).
  split; [exact C |].
  split; [apply Hu; reflexivity |].
  split; [apply Hc; reflexivity |].
  split; [apply (Hid (PUUID pid)); reflexivity |].
  exact Hreads.
Defined.

(** C5 (as stated) fails: an [id] supplied as text is accepted, and the
    record's [id] is the UUID the text denotes, an object that differs from
    the supplied value. *)
Lemma text_id_is_stored_as_a_UUID :
  match fst (BaseSchemaMixin.new (parsers := plain.parsers)
               (<["id" := PStr "ddc287ef-ab93-4ef5-8336-78883c422f6a"]> ∅)
               sample_world) with
  | Ok r =>
      BaseSchemaMixin.id r = uuid.mkUUID product_id_int
      /\ PUUID (BaseSchemaMixin.id r)
         <> PStr "ddc287ef-ab93-4ef5-8336-78883c422f6a"
  | Err _ => False
  end.
Proof. vm_compute. split; [reflexivity | discriminate]. Qed.

(** C6 (as amended).  In every successfully constructed record, a timestamp
    that was left to its default is timezone-aware and in UTC; a timestamp
    supplied as a datetime object is kept exactly as supplied, with whatever
    [tzinfo] it has, none included. *)
Theorem timestamps_utc_when_defaulted_kept_when_supplied
    {parsers : LaxParsers} (kw : kwargs) (w : World)
    (r : BaseSchemaMixin.t) (w' : World) :
  constructed kw w r w' ->
  (kw !! "created_at" = None ->
     datetime.is_utc (BaseSchemaMixin.created_at r) = true) /\
  (kw !! "updated_at" = None ->
     datetime.is_utc (BaseSchemaMixin.updated_at r) = true) /\
  (forall d, kw !! "created_at" = Some (PDatetime d) ->
     BaseSchemaMixin.created_at r = d) /\
  (forall d, kw !! "updated_at" = Some (PDatetime d) ->
     BaseSchemaMixin.updated_at r = d).
Proof.
  intros H. apply constructed_fields, base_spec in H.
  destruct H as (_ & Hc & Hu & _).
  repeat split.
  - intros E. rewrite E in Hc. now rewrite Hc.
  - intros E. rewrite E in Hu. now rewrite Hu.
  - intros d E. rewrite E in Hc. simpl in Hc. congruence.
  - intros d E. rewrite E in Hu. simpl in Hu. congruence.
Qed.

Lemma timestamps_utc_when_defaulted_kept_when_supplied_witness :
  let kw : kwargs := <["created_at" := PDatetime sample_naive]> ∅ in
  let r := BaseSchemaMixin.mk
             (uuid.mkUUID 0x00000000000040008000000000000000)
             sample_naive (now_at sample_world 0) in
  let w' := mkWorld (entropy sample_world) 16 (clock sample_world) 1 in
  constructed (parsers := plain.parsers) kw sample_world r w' /\
  datetime.is_utc (BaseSchemaMixin.updated_at r) = true /\
  BaseSchemaMixin.created_at r = sample_naive.
Proof.
  intros kw r w'.
  assert (C : constructed (parsers := plain.parsers) kw sample_world r w')
    by (left; reflexivity).
  destruct (timestamps_utc_when_defaulted_kept_when_supplied
              (parsers := plain.parsers) kw sample_world r w' C)
    as (_ & Hu & Hc & _).
  split; [exact C |]. split; [apply Hu; reflexivity | apply Hc; reflexivity].
Defined.

(** C6 (as stated) fails: a naive datetime supplied for [created_at] is
    accepted, and the record's [created_at] is not timezone-aware. *)
Lemma supplied_naive_timestamp_stays_naive :
  match fst (BaseSchemaMixin.new (parsers := plain.parsers)
               (<["created_at" := PDatetime sample_naive]> ∅) sample_world) with
  | Ok r => datetime.is_aware (BaseSchemaMixin.created_at r) = false
  | Err _ => False
  end.
Proof. vm_compute. reflexivity. Qed.

(** C8 (as amended).  When no [id] is supplied, the record's [id] is the
    16 bytes drawn from the entropy source with the version and variant bits
    overwritten, and the construction consumes those 16 bytes.  The ids of
    two such constructions are distinct exactly when their draws differ in
    one of the 122 bits that are not overwritten. *)
Theorem generated_ids_differ_iff_draws_differ
    {parsers : LaxParsers} (kw1 kw2 : kwargs) (w1 w2 : World)
    (r1 r2 : BaseSchemaMixin.t) (w1' w2' : World) :
  kw1 !! "id" = None ->
  kw2 !! "id" = None ->
  constructed kw1 w1 r1 w1' ->
  constructed kw2 w2 r2 w2' ->
  BaseSchemaMixin.id r1 = uuid.mkUUID (uuid.set_version (draw w1) 4) /\
  BaseSchemaMixin.id r2 = uuid.mkUUID (uuid.set_version (draw w2) 4) /\
  entropy_pos w1' = (entropy_pos w1 + 16)%nat /\
  (BaseSchemaMixin.id r1 <> BaseSchemaMixin.id r2
   <-> uuid4_bits.free_bits (draw w1) <> uuid4_bits.free_bits (draw w2)).
Proof.
  intros E1 E2 H1 H2.
  apply constructed_fields, base_spec in H1, H2. unfold defaulted in *.
  rewrite E1 in H1. rewrite E2 in H2.
  destruct H1 as (-> & _ & _ & _ & _ & Hpos & _). destruct H2 as (-> & _).
  repeat split; [lia | |].
  - intros N F. apply N. f_equal. now apply uuid4_facts.set_version_4_inj.
  - intros N F. apply N. apply uuid4_facts.set_version_4_inj. congruence.
Qed.

Lemma generated_ids_differ_iff_draws_differ_witness :
  let kw : kwargs := ∅ in
  let w1 := sample_world in
  let r1 := BaseSchemaMixin.mk
              (uuid.mkUUID 0x00000000000040008000000000000000)
              (now_at sample_world 0) (now_at sample_world 1) in
  let w2 := mkWorld (entropy sample_world) 16 (clock sample_world) 2 in
  let r2 := BaseSchemaMixin.mk
              (uuid.mkUUID 0x00000000000040008000000000000000)
              (now_at sample_world 2) (now_at sample_world 3) in
  let w3 := mkWorld (entropy sample_world) 32 (clock sample_world) 4 in
  kw !! "id" = None /\
  constructed (parsers := plain.parsers) kw w1 r1 w2 /\
  constructed (parsers := plain.parsers) kw w2 r2 w3 /\
  entropy_pos w2 = 16%nat /\
  (BaseSchemaMixin.id r1 <> BaseSchemaMixin.id r2
   <-> uuid4_bits.free_bits (draw w1) <> uuid4_bits.free_bits (draw w2)).
Proof.
  intros kw w1 r1 w2 r2 w3.
  assert (C1 : constructed (parsers := plain.parsers) kw w1 r1 w2)
    by (left; reflexivity).
  assert (C2 : constructed (parsers := plain.parsers) kw w2 r2 w3)
    by (left; reflexivity).
  destruct (generated_ids_differ_iff_draws_differ
              (parsers := plain.parsers) kw kw w1 w2 r1 r2 w2 w3
              eq_refl eq_refl C1 C2) as (_ & _ & Hpos & Hiff).
  split; [reflexivity |]. split; [exact C1 |]. split; [exact C2 |].
  split; [exact Hpos | exact Hiff].
Defined.

(** C8 (as stated) fails: two constructions in a row, the second drawing
    bytes that differ from the first draw in the version nibble only, yield
    the same [id]. *)
Lemma two_constructions_one_id :
  match BaseSchemaMixin.new (parsers := plain.parsers) (∅ : kwargs) sample_world with
  | (Ok r1, w1) =>
      match BaseSchemaMixin.new (parsers := plain.parsers) (∅ : kwargs) w1 with
      | (Ok r2, _) =>
          draw sample_world <> draw w1 /\
          BaseSchemaMixin.id r1 = BaseSchemaMixin.id r2
      | (Err _, _) => False
      end
  | (Err _, _) => False
  end.
Proof. vm_compute. split; [discriminate | reflexivity]. Qed.

(** C9.  An [id] that denotes a well-formed UUID of a version other than 4,
    supplied as a UUID object or as text, is rejected with a version error,
    by [BaseSchemaMixin] and by [ProductIn] alike. *)
Theorem id_must_be_version_4
    {parsers : LaxParsers} (kw : kwargs) (w : World) (v : PyVal)
    (u : uuid.UUID) :
  kw !! "id" = Some v ->
  denotes_uuid v u ->
  uuid.version u <> Some 4 ->
  (exists errors w',
     BaseSchemaMixin.new kw w = (Err (ValidationError errors), w')
     /\ In ("id", uuid_version) errors) /\
  (exists errors w',
     ProductIn.new kw w = (Err (ValidationError errors), w')
     /\ In ("id", uuid_version) errors).
Proof.
  intros Hkw Hden Hver.
  assert (Hv : validate_uuid4 v = Err uuid_version).
  { assert (C : check_version 4 u = Err uuid_version).
    { unfold check_version. destruct (uuid.version u) as [n|]; [|reflexivity].
      destruct (Z.eqb_spec n 4); [subst; congruence | reflexivity]. }
    destruct Hden as [-> | (s & -> & Hs)]; simpl; [exact C |].
    now rewrite Hs. }
  assert (F : fails_with (BaseSchemaMixin.fields kw) ("id", uuid_version)).
  { unfold BaseSchemaMixin.fields. do 2 apply fails_ap_l. apply fails_ap_r.
    eapply fails_field_with_default_invalid; eassumption. }
  split; apply fails_instantiate.
  - exact F.
  - unfold ProductIn.fields. do 4 apply fails_ap_l. apply fails_ap_r. exact F.
Qed.

Lemma id_must_be_version_4_witness :
  let kw : kwargs := <["id" := PUUID sample_uuid1]> sample_product in
  kw !! "id" = Some (PUUID sample_uuid1) /\
  denotes_uuid (parsers := plain.parsers) (PUUID sample_uuid1) sample_uuid1 /\
  uuid.version sample_uuid1 = Some 1 /\
  (exists errors w',
     ProductIn.new (parsers := plain.parsers) kw sample_world
     = (Err (ValidationError errors), w')
     /\ In ("id", uuid_version) errors).
Proof.
  intros kw.
  split; [reflexivity |]. split; [left; reflexivity |]. split; [reflexivity |].
  apply (id_must_be_version_4 (parsers := plain.parsers) kw sample_world
           (PUUID sample_uuid1) sample_uuid1);
    [reflexivity | left; reflexivity | vm_compute; discriminate].
Defined.

(** ** Claims about ProductIn and the sample-data fixtures *)

Section ProductLemmas.

Context {parsers : LaxParsers}.

(** The inherited fields look at three keywords only. *)
Lemma base_fields_ext (kw1 kw2 : kwargs) w :
  kw1 !! "id" = kw2 !! "id" ->
  kw1 !! "created_at" = kw2 !! "created_at" ->
  kw1 !! "updated_at" = kw2 !! "updated_at" ->
  BaseSchemaMixin.fields kw1 w = BaseSchemaMixin.fields kw2 w.
Proof.
  unfold BaseSchemaMixin.fields, ap, field_with_default.
  intros -> -> ->. reflexivity.
Qed.

(** Supplying a version-4 UUID object as [id] changes the [id] and nothing
    else of the record. *)
Lemma base_fields_override_id (d : kwargs) w b w1 u :
  BaseSchemaMixin.fields d w = (Ok b, w1) ->
  check_version 4 u = Ok u ->
  exists w2,
    BaseSchemaMixin.fields (<["id" := PUUID u]> d) w
    = (Ok (BaseSchemaMixin.mk u (BaseSchemaMixin.created_at b)
                                (BaseSchemaMixin.updated_at b)), w2).
Proof.
  intros H Hu. apply base_spec in H as (_ & Hc & Hup & _).
  unfold BaseSchemaMixin.fields, ap, pure, field_with_default.
  rewrite lookup_insert_eq, !lookup_insert_ne by done.
  simpl validate_uuid4. rewrite Hu. unfold defaulted in Hup.
  destruct (d !! "created_at") as [vc|], (d !! "updated_at") as [vu|];
    rewrite ?Hc, ?Hup; simpl; rewrite ?Hc, ?Hup;
    unfold now_at; simpl; rewrite ?Nat.add_0_r, ?Nat.add_1_r;
    eexists; reflexivity.
Qed.

(** Replacing one of the four product fields by a value its validator
    converts replaces that field of the record and nothing else. *)
Lemma product_new_intro (kw : kwargs) w b w' vn n vq q vp pr vs st :
  BaseSchemaMixin.fields kw w = (Ok b, w') ->
  kw !! "name" = Some vn -> validate_str vn = Ok n ->
  kw !! "quantity" = Some vq -> validate_int vq = Ok q ->
  kw !! "price" = Some vp -> validate_float vp = Ok pr ->
  kw !! "status" = Some vs -> validate_bool vs = Ok st ->
  ProductIn.new kw w = (Ok (ProductIn.mk b n q pr st), w').
Proof.
  intros. unfold ProductIn.new. apply instantiate_Ok.
  eapply product_fields_intro; eassumption.
Qed.

Lemma refused_fails {A} name (validate : PyVal -> result ErrorType A)
    (kw : kwargs) :
  refused name validate kw ->
  exists e, fails_with (field_required name validate kw) (name, e).
Proof.
  unfold refused. destruct (kw !! name) as [v|] eqn:E.
  - destruct (validate v) as [a|e] eqn:Ev; [discriminate|]. intros _.
    exists e. eapply fails_field_required_invalid; eassumption.
  - intros _. exists missing. now apply fails_field_required_missing.
Qed.

Lemma fails_rejects (kw : kwargs) w name e :
  fails_with (ProductIn.fields kw) (name, e) -> rejects_field kw w name.
Proof.
  intros F. destruct (fails_instantiate _ _ w F) as (errors & w' & E & Hin).
  exists errors, w', e. split; [exact E | exact Hin].
Qed.

Lemma product_fails_name (kw : kwargs) e :
  fails_with (field_required "name" validate_str kw) ("name", e) ->
  fails_with (ProductIn.fields kw) ("name", e).
Proof.
  intros H. unfold ProductIn.fields.
  do 3 apply fails_ap_l. apply fails_ap_r. exact H.
Qed.

Lemma product_fails_quantity (kw : kwargs) e :
  fails_with (field_required "quantity" validate_int kw) ("quantity", e) ->
  fails_with (ProductIn.fields kw) ("quantity", e).
Proof.
  intros H. unfold ProductIn.fields.
  do 2 apply fails_ap_l. apply fails_ap_r. exact H.
Qed.

Lemma product_fails_price (kw : kwargs) e :
  fails_with (field_required "price" validate_float kw) ("price", e) ->
  fails_with (ProductIn.fields kw) ("price", e).
Proof.
  intros H. unfold ProductIn.fields.
  apply fails_ap_l. apply fails_ap_r. exact H.
Qed.

Lemma product_fails_status (kw : kwargs) e :
  fails_with (field_required "status" validate_bool kw) ("status", e) ->
  fails_with (ProductIn.fields kw) ("status", e).
Proof.
  intros H. unfold ProductIn.fields. apply fails_ap_r. exact H.
Qed.

Lemma rejects_field_not_ok (kw : kwargs) w name :
  rejects_field kw w name -> is_ok (fst (ProductIn.new kw w)) = false.
Proof. intros (errors & w' & e & -> & _). reflexivity. Qed.

(** Replacing the quantity of a valid product. *)
Lemma product_new_replace_quantity (kw : kwargs) w p w' v q :
  ProductIn.new kw w = (Ok p, w') ->
  validate_int v = Ok q ->
  ProductIn.new (<["quantity" := v]> kw) w
  = (Ok (ProductIn.mk (ProductIn.base p) (ProductIn.name p) q
                      (ProductIn.price p) (ProductIn.status p)), w').
Proof.
  intros H Hv. unfold ProductIn.new in H. apply instantiate_Ok in H.
  apply product_fields_Ok in H
    as (Hb & (vn & Hn & Hn') & _ & (vp & Hp & Hp') & (vs & Hs & Hs')).
  eapply product_new_intro;
    [ | | exact Hn' | apply lookup_insert_eq | exact Hv | | exact Hp'
      | | exact Hs' ];
    try (rewrite lookup_insert_ne by done; assumption).
  rewrite <- Hb. apply base_fields_ext; now rewrite lookup_insert_ne.
Qed.

(** Replacing the price of a valid product. *)
Lemma product_new_replace_price (kw : kwargs) w p w' v f :
  ProductIn.new kw w = (Ok p, w') ->
  validate_float v = Ok f ->
  ProductIn.new (<["price" := v]> kw) w
  = (Ok (ProductIn.mk (ProductIn.base p) (ProductIn.name p)
                      (ProductIn.quantity p) f (ProductIn.status p)), w').
Proof.
  intros H Hv. unfold ProductIn.new in H. apply instantiate_Ok in H.
  apply product_fields_Ok in H
    as (Hb & (vn & Hn & Hn') & (vq & Hq & Hq') & _ & (vs & Hs & Hs')).
  eapply product_new_intro;
    [ | | exact Hn' | | exact Hq' | apply lookup_insert_eq | exact Hv
      | | exact Hs' ];
    try (rewrite lookup_insert_ne by done; assumption).
  rewrite <- Hb. apply base_fields_ext; now rewrite lookup_insert_ne.
Qed.

End ProductLemmas.

Lemma product_id_value : product_id = Ok (uuid.mkUUID product_id_int).
Proof. vm_compute. reflexivity. Qed.

Lemma product_id_is_version_4 {parsers : LaxParsers} :
  check_version 4 (uuid.mkUUID product_id_int) = Ok (uuid.mkUUID product_id_int).
Proof. vm_compute. reflexivity. Qed.

(** C7.  Whatever dict the factory returns, a record that [product_in]
    yields has the literal ddc287ef-ab93-4ef5-8336-78883c422f6a as its [id];
    and it does yield one whenever the factory's dict has no [id] of its own
    and is by itself a valid product, the other fields being the factory's. *)
Theorem product_in_has_the_fixed_id
    {parsers : LaxParsers} (product_data : kwargs) (w : World) :
  (forall p w',
     product_in product_data w = (Ok p, w') ->
     Ok (BaseSchemaMixin.id (ProductIn.base p)) = product_id
     /\ uuid.int (BaseSchemaMixin.id (ProductIn.base p)) = product_id_int) /\
  (forall p0 w0,
     product_data !! "id" = None ->
     ProductIn.new product_data w = (Ok p0, w0) ->
     exists p w',
       product_in product_data w = (Ok p, w')
       /\ uuid.int (BaseSchemaMixin.id (ProductIn.base p)) = product_id_int
       /\ ProductIn.name p = ProductIn.name p0
       /\ ProductIn.quantity p = ProductIn.quantity p0
       /\ ProductIn.price p = ProductIn.price p0
       /\ ProductIn.status p = ProductIn.status p0).
Proof.
  split.
  - intros p w'. unfold product_in, call_with. rewrite product_id_value.
    destruct (product_data !! "id"); [discriminate|]. intros H.
    apply product_new_base, base_spec in H as (Hid & _).
    rewrite lookup_insert_eq in Hid. apply validate_uuid4_object in Hid.
    rewrite Hid. split; reflexivity.
  - intros p0 w0 Hnone H0. unfold product_in, call_with.
    rewrite product_id_value, Hnone.
    unfold ProductIn.new in H0. apply instantiate_Ok in H0.
    apply product_fields_Ok in H0
      as (Hb & (vn & Hn & Hn') & (vq & Hq & Hq') & (vp & Hp & Hp')
          & (vs & Hs & Hs')).
    destruct (base_fields_override_id _ _ _ _ _ Hb product_id_is_version_4)
      as (w2 & Hb2).
    eexists _, w2. split.
    + eapply product_new_intro;
        [exact Hb2 | | exact Hn' | | exact Hq' | | exact Hp' | | exact Hs'];
        rewrite lookup_insert_ne by done; assumption.
    + simpl. repeat split; reflexivity.
Qed.

Lemma product_in_has_the_fixed_id_witness :
  let p0 := ProductIn.mk
              (BaseSchemaMixin.mk
                 (uuid.mkUUID 0x00000000000040008000000000000000)
                 (now_at sample_world 0) (now_at sample_world 1))
              "Notebook" 10 seven_and_a_half true in
  let w0 := mkWorld (entropy sample_world) 16 (clock sample_world) 2 in
  sample_product !! "id" = None /\
  ProductIn.new (parsers := plain.parsers) sample_product sample_world
  = (Ok p0, w0) /\
  exists p w',
    product_in (parsers := plain.parsers) sample_product sample_world
    = (Ok p, w')
    /\ uuid.int (BaseSchemaMixin.id (ProductIn.base p)) = product_id_int
    /\ ProductIn.name p = "Notebook"
    /\ ProductIn.quantity p = 10
    /\ ProductIn.price p = seven_and_a_half
    /\ ProductIn.status p = true.
Proof.
  intros p0 w0.
  split; [reflexivity |]. split; [reflexivity |].
  exact (proj2 (product_in_has_the_fixed_id
                  (parsers := plain.parsers) sample_product sample_world)
               p0 w0 eq_refl eq_refl).
Defined.

(** C2 (as amended).  Constructing a [ProductIn] fails whenever one of
    [name], [quantity], [price], [status] is missing or holds a value that
    cannot be converted to the field's type, for each of the four fields
    on its own, and the error names that field. *)
Theorem product_needs_four_convertible_fields
    {parsers : LaxParsers} (kw : kwargs) (w : World) :
  (refused "name" validate_str kw -> rejects_field kw w "name") /\
  (refused "quantity" validate_int kw -> rejects_field kw w "quantity") /\
  (refused "price" validate_float kw -> rejects_field kw w "price") /\
  (refused "status" validate_bool kw -> rejects_field kw w "status").
Proof.
  repeat split; intros H; apply refused_fails in H as (e & H);
    apply (fails_rejects _ _ _ e).
  - now apply product_fails_name.
  - now apply product_fails_quantity.
  - now apply product_fails_price.
  - now apply product_fails_status.
Qed.

Lemma product_needs_four_convertible_fields_witness :
  let kw : kwargs := <["quantity" := PStr "ten"]> (delete "status" sample_product) in
  refused "quantity" (validate_int (parsers := plain.parsers)) kw /\
  refused "status" (validate_bool (parsers := plain.parsers)) kw /\
  rejects_field (parsers := plain.parsers) kw sample_world "quantity" /\
  rejects_field (parsers := plain.parsers) kw sample_world "status".
Proof.
  intros kw.
  destruct (product_needs_four_convertible_fields
              (parsers := plain.parsers) kw sample_world)
    as (_ & Hq & _ & Hs).
  split; [reflexivity |]. split; [exact I |].
  split; [apply Hq; reflexivity | apply Hs; exact I].
Defined.

(** C2 (as stated) fails: a quantity given as the text "10", a string where
    an integer is declared, is accepted and becomes the integer 10. *)
Lemma text_quantity_is_accepted :
  match fst (ProductIn.new (parsers := plain.parsers)
               (<["quantity" := PStr "10"]> sample_product) sample_world) with
  | Ok p => ProductIn.quantity p = 10
  | Err _ => False
  end.
Proof. vm_compute. reflexivity. Qed.

(** ** Decimal numerals are read *)

Section Numerals.

Lemma digit_cases d :
  decimal.is_digit d ->
  d = 0 \/ d = 1 \/ d = 2 \/ d = 3 \/ d = 4 \/ d = 5 \/ d = 6 \/ d = 7
  \/ d = 8 \/ d = 9.
Proof. unfold decimal.is_digit. lia. Qed.

Lemma digit_of_digit_char d :
  decimal.is_digit d -> decimal.digit (decimal.digit_char d) = Some d.
Proof.
  intros H. apply digit_cases in H.
  repeat (destruct H as [-> | H]; [reflexivity |]). now subst.
Qed.

Lemma digit_char_not_space d :
  decimal.is_digit d -> decimal.is_blank (decimal.digit_char d) = false.
Proof.
  intros H. apply digit_cases in H.
  repeat (destruct H as [-> | H]; [reflexivity |]). now subst.
Qed.

Lemma sign_digit_char d s :
  decimal.is_digit d ->
  pystr.sign (String (decimal.digit_char d) s)
  = (false, String (decimal.digit_char d) s).
Proof.
  intros H. apply digit_cases in H.
  repeat (destruct H as [-> | H]; [reflexivity |]). now subst.
Qed.

Lemma digits_from_numeral ds acc n :
  Forall decimal.is_digit ds ->
  decimal.digits_from acc n (decimal.numeral ds)
  = (fold_left (fun a d => a * 10 + d) ds acc, (n + List.length ds)%nat,
     EmptyString).
Proof.
  intros H. revert acc n. induction H as [|d ds Hd _ IH]; intros acc n;
    cbn [decimal.numeral decimal.digits_from fold_left List.length].
  - now rewrite Nat.add_0_r.
  - rewrite (digit_of_digit_char d Hd), IH. now rewrite Nat.add_succ_r.
Qed.

Lemma length_numeral ds : String.length (decimal.numeral ds) = List.length ds.
Proof. induction ds; simpl; congruence. Qed.

Lemma rstrip_numeral ds :
  Forall decimal.is_digit ds ->
  pystr.rstrip_where decimal.is_blank (decimal.numeral ds)
  = decimal.numeral ds.
Proof.
  induction 1 as [|d ds Hd _ IH]; [reflexivity|].
  cbn [decimal.numeral pystr.rstrip_where]. rewrite IH.
  destruct (decimal.numeral ds); [|reflexivity].
  now rewrite (digit_char_not_space d Hd).
Qed.

(** Stripping white space leaves a signed numeral as it is. *)
Lemma strip_signed_numeral neg ds :
  ds <> [] -> Forall decimal.is_digit ds ->
  decimal.trim (decimal.signed neg (decimal.numeral ds))
  = decimal.signed neg (decimal.numeral ds).
Proof.
  intros N H. unfold decimal.trim, pystr.strip_where.
  destruct ds as [|d ds]; [congruence|]. inversion H as [|? ? Hd Hds]; subst.
  pose proof (rstrip_numeral (d :: ds) H) as R.
  destruct neg; cbn [decimal.signed].
  - change (pystr.lstrip_where decimal.is_blank
              (String "-" (decimal.numeral (d :: ds))))
      with (String "-" (decimal.numeral (d :: ds))).
    cbn [pystr.rstrip_where]. rewrite R. reflexivity.
  - cbn [decimal.numeral pystr.lstrip_where].
    rewrite (digit_char_not_space d Hd). exact R.
Qed.

Lemma sign_signed_numeral neg ds :
  ds <> [] -> Forall decimal.is_digit ds ->
  pystr.sign (decimal.signed neg (decimal.numeral ds))
  = (neg, decimal.numeral ds).
Proof.
  intros N H. destruct ds as [|d ds]; [congruence|].
  inversion H as [|? ? Hd Hds]; subst.
  destruct neg; [reflexivity|]. cbn [decimal.signed decimal.numeral].
  now apply sign_digit_char.
Qed.

(** A signed numeral is read as the integer it denotes. *)
Lemma str_as_int_numeral neg ds :
  ds <> [] -> Forall decimal.is_digit ds ->
  decimal.str_as_int (decimal.signed neg (decimal.numeral ds))
  = Some (if neg then - decimal.value ds else decimal.value ds).
Proof.
  intros N H. unfold decimal.str_as_int.
  rewrite (strip_signed_numeral neg ds N H), (sign_signed_numeral neg ds N H).
  rewrite (digits_from_numeral ds 0 0 H).
  destruct ds as [|d ds]; [congruence|]. reflexivity.
Qed.

Lemma too_long_numeral neg ds :
  ds <> [] -> Forall decimal.is_digit ds -> (List.length ds < 4300)%nat ->
  decimal.too_long (decimal.signed neg (decimal.numeral ds)) = false.
Proof.
  intros N H L. unfold decimal.too_long.
  rewrite (strip_signed_numeral neg ds N H).
  apply Nat.ltb_ge.
  destruct neg; cbn [decimal.signed String.length]; rewrite length_numeral; lia.
Qed.

(** An unsigned numeral is read as the float of the integer it denotes. *)
Lemma str_as_float_numeral ds :
  ds <> [] -> Forall decimal.is_digit ds ->
  decimal.str_as_float (decimal.numeral ds) = float_of_int (decimal.value ds).
Proof.
  intros N H. unfold decimal.str_as_float.
  change (decimal.numeral ds) with (decimal.signed false (decimal.numeral ds)).
  rewrite (strip_signed_numeral false ds N H), (sign_signed_numeral false ds N H).
  rewrite (digits_from_numeral ds 0 0 H).
  destruct ds as [|d ds]; [congruence|].
  unfold decimal.finite, float_of_int, decimal.decimal_as_float, decimal.value.
  cbn [List.length Nat.add]. cbv iota beta.
  now destruct (binary_normalize prec emax _ 0 false).
Qed.

End Numerals.

(** C10.  Replacing the quantity or the price of a valid product by a value
    of another type succeeds whenever the value converts, and the record
    holds the converted value.  Every decimal numeral given as text, with or
    without a sign, is accepted as the quantity and becomes the integer it
    denotes; every decimal numeral given as text is accepted as the price and
    becomes the float of that integer; so is any text the decimal reading
    accepts, white space and fraction included; an integer is accepted as
    the price and becomes its float.  For any replacement value whatever,
    construction succeeds exactly when the field's validator converts the
    value: a value is rejected only when it cannot be converted. *)
Theorem product_fields_are_coerced
    {parsers : LaxParsers} (kw : kwargs) (w : World) (p : ProductIn.t)
    (w' : World) :
  ProductIn.new kw w = (Ok p, w') ->
  (forall neg ds,
     ds <> [] -> Forall decimal.is_digit ds -> (List.length ds < 4300)%nat ->
     ProductIn.new
       (<["quantity" := PStr (decimal.signed neg (decimal.numeral ds))]> kw) w
     = (Ok (ProductIn.mk (ProductIn.base p) (ProductIn.name p)
              (if neg then - decimal.value ds else decimal.value ds)
              (ProductIn.price p) (ProductIn.status p)), w')) /\
  (forall ds f,
     ds <> [] -> Forall decimal.is_digit ds ->
     float_of_int (decimal.value ds) = Some f ->
     ProductIn.new (<["price" := PStr (decimal.numeral ds)]> kw) w
     = (Ok (ProductIn.mk (ProductIn.base p) (ProductIn.name p)
                         (ProductIn.quantity p) f (ProductIn.status p)), w')) /\
  (forall s z,
     decimal.too_long s = false -> decimal.str_as_int s = Some z ->
     ProductIn.new (<["quantity" := PStr s]> kw) w
     = (Ok (ProductIn.mk (ProductIn.base p) (ProductIn.name p) z
                         (ProductIn.price p) (ProductIn.status p)), w')) /\
  (forall s f,
     decimal.str_as_float s = Some f ->
     ProductIn.new (<["price" := PStr s]> kw) w
     = (Ok (ProductIn.mk (ProductIn.base p) (ProductIn.name p)
                         (ProductIn.quantity p) f (ProductIn.status p)), w')) /\
  (forall z f, float_of_int z = Some f ->
     ProductIn.new (<["price" := PInt z]> kw) w
     = (Ok (ProductIn.mk (ProductIn.base p) (ProductIn.name p)
                         (ProductIn.quantity p) f (ProductIn.status p)), w')) /\
  (forall v, is_ok (fst (ProductIn.new (<["quantity" := v]> kw) w))
             = is_ok (validate_int v)) /\
  (forall v, is_ok (fst (ProductIn.new (<["price" := v]> kw) w))
             = is_ok (validate_float v)).
Proof.
  intros H.
  assert (Q : forall s z,
             decimal.too_long s = false -> decimal.str_as_int s = Some z ->
             validate_int (PStr s) = Ok z).
  { intros s z L E. simpl. now rewrite L, E. }
  assert (P : forall s f,
             decimal.str_as_float s = Some f -> validate_float (PStr s) = Ok f).
  { intros s f E. simpl. now rewrite E. }
  repeat split.
  - intros neg ds N D L. apply (product_new_replace_quantity _ _ _ _ _ _ H).
    apply Q; [now apply too_long_numeral | now apply str_as_int_numeral].
  - intros ds f N D F. apply (product_new_replace_price _ _ _ _ _ _ H).
    apply P. now rewrite str_as_float_numeral.
  - intros s z L E. apply (product_new_replace_quantity _ _ _ _ _ _ H).
    now apply Q.
  - intros s f E. apply (product_new_replace_price _ _ _ _ _ _ H).
    now apply P.
  - intros z f Hz. apply (product_new_replace_price _ _ _ _ _ _ H).
    simpl. now rewrite Hz.
  - intros v. destruct (validate_int v) as [q|e] eqn:Ev.
    + now rewrite (product_new_replace_quantity _ _ _ _ _ _ H Ev).
    + apply (rejects_field_not_ok _ _ "quantity"), (fails_rejects _ _ _ e),
        product_fails_quantity.
      eapply fails_field_required_invalid; [apply lookup_insert_eq | exact Ev].
  - intros v. destruct (validate_float v) as [f|e] eqn:Ev.
    + now rewrite (product_new_replace_price _ _ _ _ _ _ H Ev).
    + apply (rejects_field_not_ok _ _ "price"), (fails_rejects _ _ _ e),
        product_fails_price.
      eapply fails_field_required_invalid; [apply lookup_insert_eq | exact Ev].
Qed.

Lemma product_fields_are_coerced_witness :
  let b := BaseSchemaMixin.mk
             (uuid.mkUUID 0x00000000000040008000000000000000)
             (now_at sample_world 0) (now_at sample_world 1) in
  let p := ProductIn.mk b "Notebook" 10 seven_and_a_half true in
  let w' := mkWorld (entropy sample_world) 16 (clock sample_world) 2 in
  ProductIn.new (parsers := plain.parsers) sample_product sample_world
  = (Ok p, w') /\
  ProductIn.new (parsers := plain.parsers)
    (<["quantity" := PStr "-42"]> sample_product) sample_world
  = (Ok (ProductIn.mk b "Notebook" (-42) seven_and_a_half true), w') /\
  ProductIn.new (parsers := plain.parsers)
    (<["price" := PStr "10"]> sample_product) sample_world
  = (Ok (ProductIn.mk b "Notebook" 10
           (S754_finite false 5629499534213120 (-49)) true), w') /\
  ProductIn.new (parsers := plain.parsers)
    (<["price" := PStr " 7.5 "]> sample_product) sample_world
  = (Ok (ProductIn.mk b "Notebook" 10 seven_and_a_half true), w') /\
  ProductIn.new (parsers := plain.parsers)
    (<["price" := PInt 10]> sample_product) sample_world
  = (Ok (ProductIn.mk b "Notebook" 10
           (S754_finite false 5629499534213120 (-49)) true), w').
Proof.
  intros b p w'.
  assert (H : ProductIn.new (parsers := plain.parsers) sample_product
                sample_world = (Ok p, w')) by reflexivity.
  destruct (product_fields_are_coerced
              (parsers := plain.parsers) sample_product sample_world p w' H)
    as (Hq & Hn & _ & Hps & Hpi & _).
  assert (D42 : Forall decimal.is_digit [4; 2])
    by (repeat constructor; unfold decimal.is_digit; lia).
  assert (D10 : Forall decimal.is_digit [1; 0])
    by (repeat constructor; unfold decimal.is_digit; lia).
  split; [exact H |].
  split; [apply (Hq true [4; 2]); [discriminate | exact D42 | cbn [List.length]; lia] |].
  split; [apply (Hn [1; 0]); [discriminate | exact D10 | reflexivity] |].
  split; [apply (Hps " 7.5 " seven_and_a_half); reflexivity |].
  apply (Hpi 10 (S754_finite false 5629499534213120 (-49))); reflexivity.
Defined.

(** ** Claims about the cleanup step *)

Section Cleanup.

Implicit Types (s : mongo.Server) (client : mongo.Client).

Lemma delete_in_empty_filter name cs :
  mongo.delete_in name mongo.empty_filter cs
  = List.map (fun c => if String.eqb (fst c) name then emptied c else c) cs.
Proof.
  unfold mongo.delete_in, emptied. apply List.map_ext. intros c.
  destruct (String.eqb (fst c) name); [|reflexivity].
  f_equal. f_equal. induction (mongo.documents (snd c)); auto.
Qed.

Lemma find_collection_Some name d c :
  mongo.find_collection name d = Some c ->
  exists n, In (n, c) (mongo.collections d).
Proof.
  unfold mongo.find_collection.
  destruct (List.find _ _) as [[n c']|] eqn:F; [|discriminate].
  intros E. inversion E; subst. apply List.find_some in F as [F _]. eauto.
Qed.

Lemma find_collection_None name d c :
  mongo.find_collection name d = None ->
  In c (mongo.collections d) -> String.eqb (fst c) name = false.
Proof.
  unfold mongo.find_collection.
  destruct (List.find _ _) eqn:F; [discriminate|]. intros _ Hin.
  exact (List.find_none _ _ F c Hin).
Qed.

Lemma database_insert_eq db d s : mongo.database db (<[db := d]> s) = d.
Proof. unfold mongo.database. now rewrite lookup_insert_eq. Qed.

Lemma database_insert_ne db db' d s :
  db <> db' -> mongo.database db' (<[db := d]> s) = mongo.database db' s.
Proof. intros N. unfold mongo.database. now rewrite lookup_insert_ne. Qed.

(** A delete answers with the collection's own error, or succeeds and
    replaces the collections of that one database. *)
Lemma delete_many_cases db name s :
  let d := mongo.database db s in
  match mongo.delete_many db name mongo.empty_filter s with
  | (Err e, s') =>
      s' = s /\ exists c, In c (mongo.collections d)
                          /\ mongo.delete_raises (snd c) = Some e
  | (Ok _, s') =>
      (s' = s /\ mongo.find_collection name d = None) \/
      (s' = <[db := mongo.mkDatabase
                       (mongo.delete_in name mongo.empty_filter
                          (mongo.collections d))
                       (mongo.list_raises d)]> s
       /\ exists c, mongo.find_collection name d = Some c
                    /\ mongo.delete_raises c = None)
  end.
Proof.
  intros d. unfold mongo.delete_many. fold d.
  destruct (mongo.find_collection name d) as [c|] eqn:F; [|now left].
  destruct (mongo.delete_raises c) as [e|] eqn:R.
  - split; [reflexivity|]. apply find_collection_Some in F as (n & Hin).
    exists (n, c). auto.
  - right. split; [reflexivity|]. eauto.
Qed.

Lemma raises_only_Exceptions_database db s :
  map_Forall (fun _ d => raises_only_Exceptions d = true) s ->
  raises_only_Exceptions (mongo.database db s) = true.
Proof.
  intros H. unfold mongo.database. destruct (s !! db) as [d|] eqn:E.
  - exact (H db d E).
  - reflexivity.
Qed.

Lemma raises_only_Exceptions_delete_in name d :
  raises_only_Exceptions d = true ->
  raises_only_Exceptions
    (mongo.mkDatabase
       (mongo.delete_in name mongo.empty_filter (mongo.collections d))
       (mongo.list_raises d)) = true.
Proof.
  unfold raises_only_Exceptions. simpl. intros H.
  apply andb_prop in H as [-> H]. simpl.
  rewrite List.forallb_forall in *. intros c Hin.
  unfold mongo.delete_in in Hin. apply List.in_map_iff in Hin as (c0 & <- & Hin).
  specialize (H c0 Hin). now destruct (String.eqb (fst c0) name).
Qed.

(** An error leaving the loop is an [Exception] when the server only
    answers with such. *)
Lemma clear_each_raises_Exception client names s e s' :
  map_Forall (fun _ d => raises_only_Exceptions d = true) s ->
  clear_each client names s = (Err e, s') ->
  isinstance_Exception e = true.
Proof.
  revert s. induction names as [|n rest IH]; intros s Hs; simpl.
  - discriminate.
  - destruct (String.prefix "system" n); [now apply IH|].
    unfold mongo.get_database.
    destruct (mongo.default_database_name client) as [db|];
      [|intros H; inversion H; reflexivity].
    pose proof (delete_many_cases db n s) as C. simpl in C.
    destruct (mongo.delete_many db n mongo.empty_filter s) as [[[]|e0] s1].
    + destruct C as [[-> _] | [-> _]]; [now apply IH|].
      apply IH. apply map_Forall_insert_2; [|exact Hs].
      apply raises_only_Exceptions_delete_in.
      now apply raises_only_Exceptions_database.
    + destruct C as (-> & c & Hin & R). intros H. inversion H; subst.
      pose proof (raises_only_Exceptions_database db _ Hs) as Q.
      unfold raises_only_Exceptions in Q. apply andb_prop in Q as [_ Q].
      rewrite List.forallb_forall in Q. specialize (Q c Hin).
      now rewrite R in Q.
Qed.

End Cleanup.

(** C4.  Whatever the client and the state of the server, as long as the
    errors the server answers with are instances of [Exception], the class
    every driver error derives from, the cleanup step returns normally: an
    error raised while selecting the database, listing the collections or
    clearing one is discarded and nothing is propagated to the test. *)
Theorem cleanup_discards_every_Exception
    (client : mongo.Client) (s : mongo.Server) :
  map_Forall (fun _ d => raises_only_Exceptions d = true) s ->
  fst (clear_collections client s) = Returned.
Proof.
  intros Hs. unfold clear_collections.
  destruct (clear_all client s) as [[[]|e] s'] eqn:E; [reflexivity|].
  simpl. replace (isinstance_Exception e) with true; [reflexivity|].
  symmetry. revert E. unfold clear_all, mongo.get_database.
  destruct (mongo.default_database_name client) as [db|];
    [|intros H; inversion H; reflexivity].
  unfold mongo.list_collection_names.
  destruct (mongo.list_raises (mongo.database db s)) as [e0|] eqn:L.
  - intros H. inversion H; subst.
    pose proof (raises_only_Exceptions_database db _ Hs) as Q.
    unfold raises_only_Exceptions in Q. rewrite L in Q.
    now apply andb_prop in Q as [Q _].
  - now apply clear_each_raises_Exception.
Qed.

Lemma cleanup_discards_every_Exception_witness :
  map_Forall (fun _ d => raises_only_Exceptions d = true) sample_guarded_server /\
  clear_all store_client sample_guarded_server
  = (Err (OperationFailure 13), sample_guarded_server) /\
  fst (clear_collections store_client sample_guarded_server) = Returned.
Proof.
  assert (H : map_Forall (fun _ d => raises_only_Exceptions d = true)
                sample_guarded_server)
    by (apply map_Forall_singleton; reflexivity).
  split; [exact H |]. split; [reflexivity |].
  exact (cleanup_discards_every_Exception store_client sample_guarded_server H).
Defined.

Section Sweep.

Implicit Types (s : mongo.Server) (client : mongo.Client).

Lemma swept_so_far_nil c : swept_so_far [] c = c.
Proof. unfold swept_so_far. simpl. now rewrite andb_false_r. Qed.

Lemma swept_so_far_skip n rest c :
  String.prefix "system" n = true \/ String.eqb (fst c) n = false ->
  swept_so_far (n :: rest) c = swept_so_far rest c.
Proof.
  unfold swept_so_far. simpl. destruct (String.eqb_spec (fst c) n) as [->|N].
  - intros [-> | F]; [reflexivity | discriminate].
  - reflexivity.
Qed.

Lemma swept_so_far_visit n rest c :
  String.prefix "system" n = false ->
  swept_so_far rest (if String.eqb (fst c) n then emptied c else c)
  = swept_so_far (n :: rest) c.
Proof.
  intros P. destruct c as [name col]. unfold swept_so_far, emptied. simpl.
  destruct (String.eqb_spec name n) as [->|N]; [|reflexivity].
  simpl. rewrite P. simpl. now destruct (existsb _ rest).
Qed.

Lemma fault_free_delete_in name d :
  fault_free d = true ->
  fault_free
    (mongo.mkDatabase
       (mongo.delete_in name mongo.empty_filter (mongo.collections d))
       (mongo.list_raises d)) = true.
Proof.
  unfold fault_free. simpl. intros H.
  apply andb_prop in H as [-> H]. simpl.
  rewrite List.forallb_forall in *. intros c Hin.
  unfold mongo.delete_in in Hin. apply List.in_map_iff in Hin as (c0 & <- & Hin).
  specialize (H c0 Hin). now destruct (String.eqb (fst c0) name).
Qed.

(** The loop on a database that answers every request: it runs to its
    end, and each collection visited is emptied unless it is a system
    collection. *)
Lemma clear_each_sweeps client db names s :
  mongo.default_database_name client = Some db ->
  fault_free (mongo.database db s) = true ->
  exists s',
    clear_each client names s = (Ok tt, s') /\
    mongo.collections (mongo.database db s')
    = List.map (swept_so_far names) (mongo.collections (mongo.database db s)) /\
    (forall db', db <> db' -> s' !! db' = s !! db').
Proof.
  intros Hdb. revert s. induction names as [|n rest IH]; intros s Hs.
  - exists s. split; [reflexivity|]. split; [|auto].
    rewrite (List.map_ext _ id swept_so_far_nil). now rewrite List.map_id.
  - simpl. destruct (String.prefix "system" n) eqn:P.
    + destruct (IH s Hs) as (s' & E & Hc & Ho). exists s'.
      split; [exact E|]. split; [|exact Ho]. rewrite Hc.
      apply List.map_ext. intros c. symmetry. apply swept_so_far_skip. auto.
    + unfold mongo.get_database. rewrite Hdb.
      pose proof (delete_many_cases db n s) as C. simpl in C.
      destruct (mongo.delete_many db n mongo.empty_filter s) as [[[]|e0] s1].
      * destruct C as [[-> F] | [-> _]].
        -- destruct (IH s Hs) as (s' & E & Hc & Ho). exists s'.
           split; [exact E|]. split; [|exact Ho]. rewrite Hc.
           apply List.map_ext_in. intros c Hin. symmetry.
           apply swept_so_far_skip. right.
           now apply (find_collection_None n (mongo.database db s)).
        -- set (d := mongo.database db s) in *.
           set (d1 := mongo.mkDatabase _ _).
           assert (Hs1 : fault_free (mongo.database db (<[db := d1]> s)) = true).
           { rewrite database_insert_eq. now apply fault_free_delete_in. }
           destruct (IH _ Hs1) as (s' & E & Hc & Ho). exists s'.
           split; [exact E|]. split.
           ++ rewrite Hc, database_insert_eq. unfold d1. simpl.
              rewrite delete_in_empty_filter, List.map_map.
              apply List.map_ext. intros c. now apply swept_so_far_visit.
           ++ intros db' N. rewrite (Ho db' N). now apply lookup_insert_ne.
      * exfalso. destruct C as (_ & c & Hin & R).
        unfold fault_free in Hs. apply andb_prop in Hs as [_ Hs].
        rewrite List.forallb_forall in Hs. specialize (Hs c Hin).
        now rewrite R in Hs.
Qed.

(** What the cleanup step does when the client's URI names a database
    and the server answers every request: every collection of that
    database whose name does not begin with "system" is left without
    documents, the system collections and the other databases are left as
    they were. *)
Lemma cleanup_sweeps_the_named_database client db s :
  mongo.default_database_name client = Some db ->
  fault_free (mongo.database db s) = true ->
  exists s',
    clear_collections client s = (Returned, s') /\
    mongo.collections (mongo.database db s')
    = List.map swept (mongo.collections (mongo.database db s)) /\
    (forall db', db <> db' -> s' !! db' = s !! db').
Proof.
  intros Hdb Hs.
  destruct (clear_each_sweeps client db
              (List.map fst (mongo.collections (mongo.database db s))) s
              Hdb Hs) as (s' & E & Hc & Ho).
  exists s'. split; [|split; [|exact Ho]].
  - unfold clear_collections, clear_all, mongo.get_database,
      mongo.list_collection_names. rewrite Hdb.
    unfold fault_free in Hs. apply andb_prop in Hs as [L _].
    destruct (mongo.list_raises (mongo.database db s)); [discriminate|].
    now rewrite E.
  - rewrite Hc. apply List.map_ext_in. intros c Hin.
    unfold swept_so_far, swept.
    destruct (String.prefix "system" (fst c)); [reflexivity|]. simpl.
    replace (existsb _ _) with true; [reflexivity|].
    symmetry. apply List.existsb_exists. exists (fst c).
    split; [now apply List.in_map | apply String.eqb_refl].
Qed.

End Sweep.

(** The sweep as intended, on the sample server through a client whose URI
    names the database. *)
Example cleanup_with_store_client :
  clear_collections store_client sample_server
  = (Returned,
     {[ "store" :=
          mongo.mkDatabase
            [("products", mongo.mkCollection [] None);
             ("system.views", mongo.mkCollection [sample_document] None)]
            None ]}).
Proof. vm_compute. reflexivity. Qed.

(** Anything that is not an [Exception] passes through the handler. *)
Example cleanup_lets_cancellation_through :
  fst (clear_collections store_client
         {[ "store" := mongo.mkDatabase [] (Some CancelledError) ]})
  = Propagated CancelledError.
Proof. vm_compute. reflexivity. Qed.

(** The session's client was built from a URI that names no database. *)
Lemma mongo_client_has_no_default_database :
  mongo.get_database mongo_client
  = Err (ConfigurationError "No default database defined").
Proof. reflexivity. Qed.

(** C3 fails on the code.  The cleanup step runs with the session's client,
    whose URI names no database: selecting the database raises a
    ConfigurationError before anything is listed, the handler discards it,
    and the step ends having deleted nothing, whatever the state of the
    server.  On the sample server the collection [products] keeps its
    document. *)
Theorem session_cleanup_deletes_nothing :
  (forall s : mongo.Server, clear_collections mongo_client s = (Returned, s)) /\
  mongo.find_collection "products"
    (mongo.database "store" (snd (clear_collections mongo_client sample_server)))
  = Some (mongo.mkCollection [sample_document] None).
Proof. split; [intros s|]; reflexivity. Qed.

(** * Further properties of the schemas *)

Section SchemaFacts.

Context {parsers : LaxParsers}.

Lemma check_version_Ok u u' :
  check_version 4 u = Ok u' -> u' = u /\ uuid.version u = Some 4.
Proof.
  unfold check_version. destruct (uuid.version u) as [v|]; [|discriminate].
  destruct (Z.eqb_spec v 4); [|discriminate]. intros H. inversion H. now subst.
Qed.

Lemma check_version_intro u :
  uuid.version u = Some 4 -> check_version 4 u = Ok u.
Proof. unfold check_version. now intros ->. Qed.

Lemma validate_uuid4_version v u :
  validate_uuid4 v = Ok u -> uuid.version u = Some 4.
Proof.
  destruct v; simpl; try discriminate.
  - destruct (str_as_uuid s) as [u0|]; [|discriminate].
    intros H. apply check_version_Ok in H as [-> H]. exact H.
  - intros H. apply check_version_Ok in H as [-> H]. exact H.
Qed.

(** Whatever way it was obtained, the [id] of a record is of version 4. *)
Lemma constructed_id_version (kw : kwargs) w r w' :
  constructed kw w r w' -> uuid.version (BaseSchemaMixin.id r) = Some 4.
Proof.
  intros H. apply constructed_fields, base_spec in H as (Hid & _).
  destruct (kw !! "id") as [v|].
  - now apply validate_uuid4_version in Hid.
  - rewrite Hid. apply uuid4_facts.version_set_version_4.
Qed.

(** A record's own values are accepted, and give the record back. *)
Lemma base_values_fields r w :
  uuid.version (BaseSchemaMixin.id r) = Some 4 ->
  BaseSchemaMixin.fields (base_values r) w = (Ok r, w).
Proof.
  intros V. destruct r as [i c u]. simpl in V.
  unfold BaseSchemaMixin.fields, ap, pure, field_with_default, base_values.
  simpl BaseSchemaMixin.id. simpl BaseSchemaMixin.created_at.
  simpl BaseSchemaMixin.updated_at.
  rewrite lookup_insert_eq. simpl validate_uuid4.
  rewrite (check_version_intro _ V).
  rewrite (lookup_insert_ne _ "id" "created_at") by done.
  rewrite lookup_insert_eq. simpl validate_datetime.
  rewrite (lookup_insert_ne _ "id" "updated_at") by done.
  rewrite (lookup_insert_ne _ "created_at" "updated_at") by done.
  rewrite lookup_insert_eq. reflexivity.
Qed.

(** The product's fields look at seven keywords only. *)
Lemma product_fields_ext (kw1 kw2 : kwargs) w :
  (forall name, In name product_field_names -> kw1 !! name = kw2 !! name) ->
  ProductIn.fields kw1 w = ProductIn.fields kw2 w.
Proof.
  intros H. unfold ProductIn.fields, ap, pure, field_required.
  cbv beta iota.
  rewrite (base_fields_ext kw1 kw2 w) by (apply H; simpl; tauto).
  rewrite (H "name"), (H "quantity"), (H "price"), (H "status")
    by (simpl; tauto).
  reflexivity.
Qed.













End SchemaFacts.

(** X1.  The [id] of every successfully constructed record, of
    [BaseSchemaMixin] or [ProductIn], generated or supplied, as an object or
    as text, is an RFC 4122 UUID of version 4. *)
Theorem every_id_is_version_4
    {parsers : LaxParsers} (kw : kwargs) (w : World)
    (r : BaseSchemaMixin.t) (w' : World) :
  constructed kw w r w' ->
  uuid.version (BaseSchemaMixin.id r) = Some 4 /\
  uuid.variant (BaseSchemaMixin.id r) = uuid.RFC_4122.
Proof.
  intros H. apply constructed_id_version in H. split; [exact H|].
  unfold uuid.version in H.
  destruct (uuid.variant (BaseSchemaMixin.id r)); congruence.
Qed.

Lemma every_id_is_version_4_witness :
  let kw : kwargs := <["id" := PStr "ddc287ef-ab93-4ef5-8336-78883c422f6a"]> ∅ in
  let r := BaseSchemaMixin.mk (uuid.mkUUID product_id_int)
             (now_at sample_world 0) (now_at sample_world 1) in
  let w' := mkWorld (entropy sample_world) 0 (clock sample_world) 2 in
  constructed (parsers := plain.parsers) kw sample_world r w' /\
  uuid.version (BaseSchemaMixin.id r) = Some 4 /\
  uuid.variant (BaseSchemaMixin.id r) = uuid.RFC_4122.
Proof.
  intros kw r w'.
  assert (C : constructed (parsers := plain.parsers) kw sample_world r w')
    by (left; reflexivity).
  split; [exact C |].
  exact (every_id_is_version_4 (parsers := plain.parsers) kw sample_world r w' C).
Defined.

(** X2.  Handing a successfully constructed record's own field values back
    to its class gives the same record again, in any world, and leaves that
    world as it was: nothing is generated and nothing is converted. *)
Theorem own_values_rebuild_the_record
    {parsers : LaxParsers} (kw : kwargs) (w w' : World) :
  (forall r,
     constructed kw w r w' ->
     forall w2, BaseSchemaMixin.new (base_values r) w2 = (Ok r, w2)) /\
  (forall p,
     ProductIn.new kw w = (Ok p, w') ->
     forall w2, ProductIn.new (product_values p) w2 = (Ok p, w2)).
Proof.
  split.
  - intros r H w2. apply constructed_id_version in H.
    unfold BaseSchemaMixin.new. apply instantiate_Ok.
    now apply base_values_fields.
  - intros p H w2.
    assert (V : uuid.version (BaseSchemaMixin.id (ProductIn.base p)) = Some 4).
    { apply (constructed_id_version kw w _ w'). right. eauto. }
    destruct p as [b n q pr st].
    apply (product_new_intro _ _ _ _ (PStr n) _ (PInt q) _ (PFloat pr) _
             (PBool st));
      try reflexivity.
    rewrite <- (base_values_fields b w2 V).
    apply base_fields_ext; reflexivity.
Qed.

Lemma own_values_rebuild_the_record_witness :
  let b := BaseSchemaMixin.mk
             (uuid.mkUUID 0x00000000000040008000000000000000)
             (now_at sample_world 0) (now_at sample_world 1) in
  let p := ProductIn.mk b "Notebook" 10 seven_and_a_half true in
  let w' := mkWorld (entropy sample_world) 16 (clock sample_world) 2 in
  ProductIn.new (parsers := plain.parsers) sample_product sample_world
  = (Ok p, w') /\
  ProductIn.new (parsers := plain.parsers) (product_values p) w' = (Ok p, w').
Proof.
  intros b p w'.
  assert (H : ProductIn.new (parsers := plain.parsers) sample_product
                sample_world = (Ok p, w')) by reflexivity.
  split; [exact H |].
  exact (proj2 (own_values_rebuild_the_record
                  (parsers := plain.parsers) sample_product sample_world w')
               p H w').
Defined.

(** X3.  The outcome of a construction depends on the declared fields only:
    two sets of arguments that agree on [id], [created_at] and [updated_at]
    give the same [BaseSchemaMixin] result, and two that agree on the seven
    fields of [ProductIn] give the same [ProductIn] result.  Any other
    keyword is ignored, never an error. *)
Theorem undeclared_keywords_are_ignored
    {parsers : LaxParsers} (kw1 kw2 : kwargs) (w : World) :
  ((forall name, In name base_field_names -> kw1 !! name = kw2 !! name) ->
   BaseSchemaMixin.new kw1 w = BaseSchemaMixin.new kw2 w) /\
  ((forall name, In name product_field_names -> kw1 !! name = kw2 !! name) ->
   ProductIn.new kw1 w = ProductIn.new kw2 w).
Proof.
  split; intros H.
  - unfold BaseSchemaMixin.new, instantiate.
    rewrite (base_fields_ext kw1 kw2 w) by (apply H; simpl; tauto).
    reflexivity.
  - unfold ProductIn.new, instantiate.
    now rewrite (product_fields_ext kw1 kw2 w).
Qed.

Lemma undeclared_keywords_are_ignored_witness :
  let kw : kwargs := <["colour" := PStr "red"]> sample_product in
  (forall name, In name product_field_names -> kw !! name = sample_product !! name) /\
  ProductIn.new (parsers := plain.parsers) kw sample_world
  = ProductIn.new (parsers := plain.parsers) sample_product sample_world.
Proof.
  intros kw.
  assert (H : forall name, In name product_field_names ->
                           kw !! name = sample_product !! name).
  { intros name Hin. simpl in Hin.
    repeat (destruct Hin as [<- | Hin]; [reflexivity |]). destruct Hin. }
  split; [exact H |].
  exact (proj2 (undeclared_keywords_are_ignored
                  (parsers := plain.parsers) kw sample_product sample_world) H).
Defined.


(** A version-1 [id], a quantity that is not a number and no [status]:
    three lines, in declaration order. *)
Example three_refused_fields :
  let kw : kwargs :=
    <["id" := PUUID sample_uuid1]>
      (<["quantity" := PStr "ten"]> (delete "status" sample_product)) in
  product_refused (parsers := plain.parsers) kw = ["id"; "quantity"; "status"]
  /\ match fst (ProductIn.new (parsers := plain.parsers) kw sample_world) with
     | Err (ValidationError errors) =>
         List.map fst errors = ["id"; "quantity"; "status"]
     | _ => False
     end.
Proof. vm_compute. split; reflexivity. Qed.



(** X6.  No range is checked: in a valid product, any integer whatever is
    accepted as the quantity and any float whatever as the price, negative
    numbers, infinities and NaN included, and is stored unchanged. *)
Theorem no_range_is_checked
    {parsers : LaxParsers} (kw : kwargs) (w : World) (p : ProductIn.t)
    (w' : World) :
  ProductIn.new kw w = (Ok p, w') ->
  (forall z,
     ProductIn.new (<["quantity" := PInt z]> kw) w
     = (Ok (ProductIn.mk (ProductIn.base p) (ProductIn.name p) z
                         (ProductIn.price p) (ProductIn.status p)), w')) /\
  (forall f,
     ProductIn.new (<["price" := PFloat f]> kw) w
     = (Ok (ProductIn.mk (ProductIn.base p) (ProductIn.name p)
                         (ProductIn.quantity p) f (ProductIn.status p)), w')).
Proof.
  intros H. split.
  - intros z. now apply (product_new_replace_quantity _ _ _ _ _ _ H).
  - intros f. now apply (product_new_replace_price _ _ _ _ _ _ H).
Qed.

Lemma no_range_is_checked_witness :
  let b := BaseSchemaMixin.mk
             (uuid.mkUUID 0x00000000000040008000000000000000)
             (now_at sample_world 0) (now_at sample_world 1) in
  let p := ProductIn.mk b "Notebook" 10 seven_and_a_half true in
  let w' := mkWorld (entropy sample_world) 16 (clock sample_world) 2 in
  ProductIn.new (parsers := plain.parsers) sample_product sample_world
  = (Ok p, w') /\
  ProductIn.new (parsers := plain.parsers)
    (<["quantity" := PInt (-3)]> sample_product) sample_world
  = (Ok (ProductIn.mk b "Notebook" (-3) seven_and_a_half true), w') /\
  ProductIn.new (parsers := plain.parsers)
    (<["price" := PFloat S754_nan]> sample_product) sample_world
  = (Ok (ProductIn.mk b "Notebook" 10 S754_nan true), w').
Proof.
  intros b p w'.
  assert (H : ProductIn.new (parsers := plain.parsers) sample_product
                sample_world = (Ok p, w')) by reflexivity.
  destruct (no_range_is_checked
              (parsers := plain.parsers) sample_product sample_world p w' H)
    as (Hq & Hp).
  split; [exact H |]. split; [exact (Hq (-3)) | exact (Hp S754_nan)].
Defined.

(** * Further properties of the cleanup step *)

Section CleanupFacts.

Implicit Types (s : mongo.Server) (client : mongo.Client) (d : mongo.Database).

Lemma database_eta d :
  mongo.mkDatabase (mongo.collections d) (mongo.list_raises d) = d.
Proof. now destruct d. Qed.

Lemma sweep_database_nil d : sweep_database [] d = d.
Proof.
  unfold sweep_database.
  rewrite (List.map_ext _ id swept_so_far_nil), List.map_id.
  apply database_eta.
Qed.

Lemma sweep_database_skip n seen d :
  String.prefix "system" n = true \/ mongo.find_collection n d = None ->
  sweep_database (n :: seen) d = sweep_database seen d.
Proof.
  intros H. unfold sweep_database. f_equal.
  apply List.map_ext_in. intros c Hin. apply swept_so_far_skip.
  destruct H as [H | H]; [now left | right].
  now apply (find_collection_None n d).
Qed.

Lemma sweep_database_visit n seen d :
  String.prefix "system" n = false ->
  sweep_database seen
    (mongo.mkDatabase
       (mongo.delete_in n mongo.empty_filter (mongo.collections d))
       (mongo.list_raises d))
  = sweep_database (n :: seen) d.
Proof.
  intros P. unfold sweep_database. simpl.
  rewrite delete_in_empty_filter, List.map_map. f_equal.
  apply List.map_ext. intros c. now apply swept_so_far_visit.
Qed.

Lemma update_database_same db (f : mongo.Database -> mongo.Database) s :
  (forall d, s !! db = Some d -> f d = d) -> update_database db f s = s.
Proof.
  unfold update_database. destruct (s !! db) as [d|] eqn:E; intros H.
  - rewrite (H d eq_refl). now apply insert_id.
  - reflexivity.
Qed.

Lemma update_database_ext db (f g : mongo.Database -> mongo.Database) s :
  (forall d, s !! db = Some d -> f d = g d) ->
  update_database db f s = update_database db g s.
Proof.
  unfold update_database. destruct (s !! db) as [d|] eqn:E; intros H.
  - now rewrite (H d eq_refl).
  - reflexivity.
Qed.

Lemma database_lookup db s d :
  s !! db = Some d -> mongo.database db s = d.
Proof. intros H. unfold mongo.database. now rewrite H. Qed.

(** A collection that is found belongs to a database the server has. *)
Lemma find_collection_lookup db s n c :
  mongo.find_collection n (mongo.database db s) = Some c ->
  s !! db = Some (mongo.database db s).
Proof.
  unfold mongo.database. destruct (s !! db) as [d|]; [reflexivity|].
  discriminate.
Qed.

(** What refuses a delete does not change when collections are rewritten
    without touching their names and their errors. *)
Lemma refuses_map (g : string * mongo.Collection -> string * mongo.Collection)
    cs lr lr' n :
  (forall c, fst (g c) = fst c) ->
  (forall c, mongo.delete_raises (snd (g c)) = mongo.delete_raises (snd c)) ->
  refuses (mongo.mkDatabase (List.map g cs) lr) n
  = refuses (mongo.mkDatabase cs lr') n.
Proof.
  intros Hn He. unfold refuses, mongo.find_collection. simpl.
  induction cs as [|c cs IH]; [reflexivity|]. simpl. rewrite Hn.
  destruct (String.eqb (fst c) n); [simpl; apply He | exact IH].
Qed.

Lemma visited_ext d d' names :
  (forall n, refuses d n = refuses d' n) -> visited d names = visited d' names.
Proof.
  intros H. induction names as [|n rest IH]; [reflexivity|]. simpl.
  rewrite H, IH. reflexivity.
Qed.

Lemma first_refusal_ext d d' names :
  (forall n, refuses d n = refuses d' n) ->
  first_refusal d names = first_refusal d' names.
Proof.
  intros H. induction names as [|n rest IH]; [reflexivity|]. simpl.
  rewrite H, IH. reflexivity.
Qed.

Lemma refuses_delete_in m d n :
  refuses (mongo.mkDatabase
             (mongo.delete_in m mongo.empty_filter (mongo.collections d))
             (mongo.list_raises d)) n
  = refuses d n.
Proof.
  rewrite <- (database_eta d) at 3. unfold mongo.delete_in.
  apply refuses_map; intros c; now destruct (String.eqb (fst c) m).
Qed.

Lemma swept_so_far_fst seen c : fst (swept_so_far seen c) = fst c.
Proof. unfold swept_so_far. now destruct (_ && _). Qed.

Lemma swept_so_far_delete_raises seen c :
  mongo.delete_raises (snd (swept_so_far seen c)) = mongo.delete_raises (snd c).
Proof. unfold swept_so_far. now destruct (_ && _). Qed.

Lemma refuses_sweep_database seen d n :
  refuses (sweep_database seen d) n = refuses d n.
Proof.
  rewrite <- (database_eta d) at 2. unfold sweep_database.
  apply refuses_map; intros c;
    [apply swept_so_far_fst | apply swept_so_far_delete_raises].
Qed.

Lemma swept_so_far_idempotent seen c :
  swept_so_far seen (swept_so_far seen c) = swept_so_far seen c.
Proof.
  unfold swept_so_far at 1. rewrite swept_so_far_fst.
  unfold swept_so_far. now destruct (_ && _).
Qed.

Lemma sweep_database_idempotent seen d :
  sweep_database seen (sweep_database seen d) = sweep_database seen d.
Proof.
  unfold sweep_database. simpl. rewrite List.map_map. f_equal.
  apply List.map_ext. intros c. apply swept_so_far_idempotent.
Qed.

(** The loop, without the loop. *)
Lemma clear_each_result client db names s :
  mongo.default_database_name client = Some db ->
  clear_each client names s
  = (match first_refusal (mongo.database db s) names with
     | Some e => Err e
     | None => Ok tt
     end,
     update_database db (sweep_database (visited (mongo.database db s) names)) s).
Proof.
  intros Hdb. revert s. induction names as [|n rest IH]; intros s; simpl.
  - rewrite update_database_same; [reflexivity|].
    intros d _. apply sweep_database_nil.
  - destruct (String.prefix "system" n) eqn:P.
    + rewrite IH. f_equal. apply update_database_ext. intros d _.
      symmetry. apply sweep_database_skip. now left.
    + unfold mongo.get_database. rewrite Hdb.
      unfold mongo.delete_many, refuses.
      set (d := mongo.database db s).
      destruct (mongo.find_collection n d) as [c|] eqn:F.
      * destruct (mongo.delete_raises c) as [e|] eqn:R.
        -- rewrite update_database_same; [reflexivity|].
           intros d0 _. apply sweep_database_nil.
        -- rewrite IH, database_insert_eq.
           pose proof (find_collection_lookup db s n c F) as L. fold d in L.
           rewrite (first_refusal_ext _ d), (visited_ext _ d)
             by (intros m; apply refuses_delete_in).
           f_equal. unfold update_database.
           rewrite lookup_insert_eq, L, insert_insert_eq.
           now rewrite sweep_database_visit.
      * rewrite IH. fold d. f_equal. apply update_database_ext.
        intros d0 E. symmetry. apply sweep_database_skip. right.
        rewrite <- (database_lookup db s d0 E). exact F.
Qed.

(** The cleanup step, without its loop. *)
Lemma clear_collections_result client s :
  clear_collections client s = cleanup_result client s.
Proof.
  unfold clear_collections, clear_all, cleanup_result, mongo.get_database,
    mongo.list_collection_names, handled.
  destruct (mongo.default_database_name client) as [db|] eqn:Hdb;
    [|reflexivity].
  destruct (mongo.list_raises (mongo.database db s)) as [e|]; [reflexivity|].
  rewrite (clear_each_result client db _ s Hdb).
  now destruct (first_refusal _ _).
Qed.

Lemma database_update_eq db seen s :
  mongo.database db (update_database db (sweep_database seen) s)
  = sweep_database seen (mongo.database db s).
Proof.
  unfold update_database, mongo.database.
  destruct (s !! db) as [d|] eqn:E.
  - now rewrite lookup_insert_eq.
  - now rewrite E.
Qed.

Lemma lookup_update_ne db db' f s :
  db <> db' -> update_database db f s !! db' = s !! db'.
Proof.
  intros N. unfold update_database. destruct (s !! db); [|reflexivity].
  now apply lookup_insert_ne.
Qed.

Lemma update_database_idempotent db seen s :
  update_database db (sweep_database seen)
    (update_database db (sweep_database seen) s)
  = update_database db (sweep_database seen) s.
Proof.
  destruct (s !! db) as [d|] eqn:E.
  - assert (U : update_database db (sweep_database seen) s
                = <[db := sweep_database seen d]> s)
      by (unfold update_database; now rewrite E).
    rewrite U. unfold update_database.
    rewrite lookup_insert_eq, insert_insert_eq.
    now rewrite sweep_database_idempotent.
  - assert (U : update_database db (sweep_database seen) s = s)
      by (unfold update_database; now rewrite E).
    now rewrite !U.
Qed.

Lemma kept_or_emptied_sweep seen cs :
  Forall2 kept_or_emptied cs (List.map (swept_so_far seen) cs).
Proof.
  induction cs as [|c cs IH]; simpl; constructor; [|exact IH].
  unfold kept_or_emptied, swept_so_far.
  destruct (String.prefix "system" (fst c)); simpl; [now left|].
  destruct (existsb _ seen); [right | left]; auto.
Qed.

Lemma kept_or_emptied_refl cs : Forall2 kept_or_emptied cs cs.
Proof. induction cs; constructor; [now left | assumption]. Qed.

Lemma database_update_ne db db' f s :
  db <> db' ->
  mongo.database db' (update_database db f s) = mongo.database db' s.
Proof. intros N. unfold mongo.database. now rewrite lookup_update_ne. Qed.

End CleanupFacts.

(** X7.  Whatever the client, the state of the server and the errors met,
    the cleanup step only ever empties collections: in every database the
    collections keep their names and their order, each is afterwards as it
    was or, unless its name begins with "system", without its documents,
    and a database other than the client's own is left untouched. *)
Theorem cleanup_only_empties_collections
    (client : mongo.Client) (s : mongo.Server) (name : string) :
  let d := mongo.database name s in
  let d' := mongo.database name (snd (clear_collections client s)) in
  List.map fst (mongo.collections d') = List.map fst (mongo.collections d) /\
  Forall2 kept_or_emptied (mongo.collections d) (mongo.collections d') /\
  mongo.list_raises d' = mongo.list_raises d /\
  (mongo.default_database_name client <> Some name ->
   snd (clear_collections client s) !! name = s !! name).
Proof.
  intros d d'. subst d d'. rewrite clear_collections_result.
  unfold cleanup_result.
  destruct (mongo.default_database_name client) as [db|];
    [|simpl; repeat split; auto using kept_or_emptied_refl].
  destruct (mongo.list_raises (mongo.database db s));
    [simpl; repeat split; auto using kept_or_emptied_refl|].
  cbv zeta. simpl snd.
  destruct (decide (db = name)) as [->|N].
  - rewrite database_update_eq. unfold sweep_database. simpl.
    repeat split.
    + rewrite List.map_map. apply List.map_ext. apply swept_so_far_fst.
    + apply kept_or_emptied_sweep.
    + congruence.
  - assert (L : update_database db
                  (sweep_database
                     (visited (mongo.database db s)
                        (List.map fst (mongo.collections (mongo.database db s)))))
                  s !! name = s !! name) by now apply lookup_update_ne.
    rewrite (database_update_ne db name _ s N).
    repeat split; auto using kept_or_emptied_refl.
Qed.

(** X8.  When the client's URI names a database and listing succeeds, the
    sweep goes through the collections in listing order and stops at the
    first one, not a system collection, that refuses the delete: the
    collections before it are emptied unless they are system collections,
    that one and all after it keep their documents, and the error of that
    refusal is the error the handler sees.  With no refusal the sweep is
    complete. *)
Theorem cleanup_stops_at_the_first_refusal
    (client : mongo.Client) (db : string) (s : mongo.Server) :
  mongo.default_database_name client = Some db ->
  mongo.list_raises (mongo.database db s) = None ->
  let d := mongo.database db s in
  let names := List.map fst (mongo.collections d) in
  fst (clear_all client s)
  = match first_refusal d names with Some e => Err e | None => Ok tt end /\
  mongo.collections (mongo.database db (snd (clear_collections client s)))
  = List.map (swept_so_far (visited d names)) (mongo.collections d).
Proof.
  intros Hdb Hl d names. subst d names. split.
  - unfold clear_all, mongo.get_database, mongo.list_collection_names.
    rewrite Hdb, Hl.
    now rewrite (clear_each_result client db _ s Hdb).
  - rewrite clear_collections_result. unfold cleanup_result.
    rewrite Hdb, Hl. cbv zeta. simpl snd.
    now rewrite database_update_eq.
Qed.

Lemma cleanup_stops_at_the_first_refusal_witness :
  mongo.default_database_name store_client = Some "store" /\
  mongo.list_raises (mongo.database "store" sample_half_guarded_server) = None /\
  fst (clear_all store_client sample_half_guarded_server)
  = Err (OperationFailure 13) /\
  mongo.collections
    (mongo.database "store"
       (snd (clear_collections store_client sample_half_guarded_server)))
  = [("carts", mongo.mkCollection [] None);
     ("products",
      mongo.mkCollection [sample_document] (Some (OperationFailure 13)));
     ("orders", mongo.mkCollection [sample_document] None)].
Proof.
  split; [reflexivity |]. split; [reflexivity |].
  exact (cleanup_stops_at_the_first_refusal
           store_client "store" sample_half_guarded_server eq_refl eq_refl).
Defined.

(** X9.  The cleanup step is idempotent: run again on the state it left,
    it ends the same way and leaves that state as it is. *)
Theorem cleanup_is_idempotent (client : mongo.Client) (s : mongo.Server) :
  clear_collections client (snd (clear_collections client s))
  = clear_collections client s.
Proof.
  rewrite !clear_collections_result. unfold cleanup_result.
  destruct (mongo.default_database_name client) as [db|]; [|reflexivity].
  destruct (mongo.list_raises (mongo.database db s)) as [e|] eqn:L.
  - simpl snd. now rewrite L.
  - cbv zeta. simpl snd. rewrite database_update_eq.
    set (d := mongo.database db s) in *.
    set (seen := visited d (List.map fst (mongo.collections d))).
    assert (N : List.map fst (mongo.collections (sweep_database seen d))
                = List.map fst (mongo.collections d)).
    { unfold sweep_database. simpl. rewrite List.map_map.
      apply List.map_ext. apply swept_so_far_fst. }
    rewrite N.
    rewrite (first_refusal_ext (sweep_database seen d) d),
      (visited_ext (sweep_database seen d) d)
      by (intros n; apply refuses_sweep_database).
    fold seen. simpl mongo.list_raises. rewrite L.
    now rewrite update_database_idempotent.
Qed.
